(** * The qanta guessers: ElasticSearch/Wikidata retrieval and the RNN classifier

  A shallow embedding of [qanta/guesser/elasticsearch_wikidata.py] and
  [qanta/guesser/rnn.py].  Python objects that the two files only pass around
  are values of [pyval]; exceptions are values of [exn]; code that touches the
  file system, the search index or the log runs in the monad [M] over [world].
  Libraries the two files call (numpy, keras, sklearn, elasticsearch, the
  qanta helpers that live in other files) are interfaces: type classes whose
  methods are the calls the code makes.

  The file system knows files and directories by canonical name.  An open
  fails when the name is not there, names a directory, or lies in a
  directory that is not there; access rights and the space left on the
  device are outside the model. *)

From Stdlib Require Import ZArith QArith Lqa Ascii.
From stdpp Require Import base gmap strings list sorting.

Local Open Scope Z_scope.

(** ** Python values, exceptions and the outside world *)

Module Py.

(** The estimators the code puts into a pipeline. *)
Inductive estimator : Type :=
  | TfidfVectorizer (ngram_range : Z * Z) (min_df : Z)
  | RidgeClassifier.

(** A fitted [sklearn.pipeline.Pipeline]: its named steps and the data it
    was fitted on. *)
Record Pipeline := {
  steps : list (string * estimator);
  fit_texts : list string;
  fit_labels : list Z
}.

Inductive pyval : Type :=
  | PNone
  | PBool (b : bool)
  | PInt (n : Z)
  | PStr (s : string)
  | PArray (rows : list (list Q))
  | PStrList (l : list string)
  | PStrIntDict (d : gmap string Z)
  | PIntStrDict (d : gmap Z string)
  | PPipeline (p : Pipeline)
  | PItemMap (items : list (string * gmap string (list string))).

Inductive exn : Type :=
  | KeyError (key : pyval)
  | IndexError
  | TypeError
  | AttributeError (attr : string)
  | ValueError (msg : string) (arg : pyval)
  | FileNotFoundError (path : string)
  | IsADirectoryError (path : string)
  | NotADirectoryError (path : string)
  | FileExistsError (path : string)
  | SameFileError (src dst : string)
  | UnpicklingError (path : string)
  | NotFoundError (index : string).

Inductive result (A : Type) : Type :=
  | Ok (a : A)
  | Raise (e : exn).
Arguments Ok {A} a.
Arguments Raise {A} e.

#[export] Instance result_ret : MRet result := λ A a, Ok a.
#[export] Instance result_bind : MBind result := λ A B f r,
  match r with Ok a => f a | Raise e => Raise e end.

(** [d[k]] on a dict with string keys, and on one with int keys. *)
Definition getitem {V} (d : gmap string V) (k : string) : result V :=
  match d !! k with Some v => Ok v | None => Raise (KeyError (PStr k)) end.

Definition getitem_int {V} (d : gmap Z V) (k : Z) : result V :=
  match d !! k with Some v => Ok v | None => Raise (KeyError (PInt k)) end.

(** [l[i]] for [0 <= i]. *)
Definition getindex {A} (l : list A) (i : nat) : result A :=
  match l !! i with Some a => Ok a | None => Raise IndexError end.

(** [l[:k]]: [None] keeps everything, a negative bound counts from the end. *)
Definition slice_to {A} (k : option Z) (l : list A) : list A :=
  match k with
  | None => l
  | Some k =>
      if decide (0 ≤ k) then take (Z.to_nat k) l
      else take (length l - Z.to_nat (- k))%nat l
  end.

(** [' '.join(l)] *)
Definition join_space (l : list string) : string := String.concat " " l.

(** [int(b)] and [bool(n)] *)
Definition int_of_bool (b : bool) : Z := if b then 1 else 0.
Definition bool_of_int (n : Z) : bool := negb (n =? 0).

(** [os.path.join(directory, name)] for a relative file name. *)
Definition ends_with_slash (s : string) : bool :=
  match String.get (String.length s - 1) s with
  | Some c => bool_decide (c = "/"%char)
  | None => false
  end.

Definition os_path_join (directory name : string) : string :=
  if bool_decide (directory = "") then name
  else if ends_with_slash directory then directory +:+ name
  else directory +:+ "/" +:+ name.

End Py.

Export Py.

(** ** Objects of the libraries, the world and the monad *)

Module Env.

(** *** keras *)

Inductive cell : Type := LSTM | GRU | SimpleRNN.

Inductive layer : Type :=
  | Embedding (input_dim : Z) (output_dim : Z) (mask_zero : bool)
      (input_length : pyval) (weights : list (list (list Q)))
  | Recurrent (c : cell) (units : Z)
  | Dropout (rate : Q)
  | Dense (units : pyval)
  | BatchNormalization
  | Activation (name : string).

Inductive callback : Type :=
  | TensorBoard
  | EarlyStopping (patience : pyval) (monitor : string).

(** The arguments of one [model.fit] call. *)
Record FitArgs := {
  fit_x : list (list Z);
  fit_y : list Z;
  fit_validation_x : list (list Z);
  fit_validation_y : list Z;
  fit_batch_size : pyval;
  fit_epochs : pyval;
  fit_callbacks : list callback;
  fit_verbose : Z
}.

(** A compiled [Sequential] model, and what it was fitted on (if it was). *)
Record Sequential := {
  layers : list layer;
  loss : string;
  optimizer : string;
  metrics : list string;
  fitted : option FitArgs
}.

(** *** elasticsearch_dsl: the [Answer] document type of index ['qb'] *)

Record Answer := {
  page : string;
  wiki_content : string;
  qb_content : string;
  is_human : bool
}.

(** *** The world *)

(** What a name of the file system holds: a pickled dict, a saved keras
    model, some other file, or a directory. *)
Inductive file : Type :=
  | PickleFile (d : gmap string pyval)
  | KerasFile (m : Sequential)
  | DataFile (content : string)
  | Directory.

Inductive event : Type :=
  | LogInfo (msg : string) (args : list pyval)
  | InfoHistory (a : FitArgs)
  | Fit (m : list layer) (a : FitArgs)
  | PredictProba (m : Sequential) (x : list (list Z)) (batch_size : pyval).

(** Files and directories by canonical name, search indices by name, and
    the events so far, newest first. *)
Record world := {
  fs : gmap string file;
  es : gmap string (list Answer);
  events : list event
}.

Definition M (A : Type) : Type := world → world * result A.

#[export] Instance M_ret : MRet M := λ A a w, (w, Ok a).
#[export] Instance M_bind : MBind M := λ A B f m w,
  match m w with
  | (w', Ok a) => f a w'
  | (w', Raise e) => (w', Raise e)
  end.

Definition lift {A} (r : result A) : M A := λ w, (w, r).
Definition raise {A} (e : exn) : M A := λ w, (w, Raise e).

Definition emit (e : event) : M unit := λ w,
  ({| fs := fs w; es := es w; events := e :: events w |}, Ok tt).

(** [log.info(msg)] and [log.info(msg.format(args))] *)
Definition log_info (msg : string) (args : list pyval) : M unit :=
  emit (LogInfo msg args).

(** An operation on the files alone. *)
Definition on_files (op : gmap string file → result (gmap string file)) : M unit := λ w,
  match op (fs w) with
  | Ok files => ({| fs := files; es := es w; events := events w |}, Ok tt)
  | Raise e => (w, Raise e)
  end.

(** How the operating system reads a path.  [realpath p] is the canonical
    name of what [p] designates: two paths designate the same file exactly
    when their canonical names are equal, as ['/tmp/qanta/deep/f'],
    ['/tmp//qanta/deep/./f'] and a link to that file do.  [ancestors p] are
    the canonical names of the directories on the way to [p], outermost
    first and the one [p] lies in last, without those that are always there
    (the root, the working directory). *)
Class Os := {
  realpath : string → string;
  ancestors : string → list string
}.

Section files.
Context `{!Os}.

Definition is_dir (files : gmap string file) (d : string) : bool :=
  match files !! d with
  | Some Directory => true
  | _ => false
  end.

(** [open(path, 'rb')] and reading the file. *)
Definition fs_read (files : gmap string file) (path : string) : result file :=
  match files !! realpath path with
  | None => Raise (FileNotFoundError path)
  | Some Directory => Raise (IsADirectoryError path)
  | Some f => Ok f
  end.

(** [os.makedirs(d, exist_ok=True)] for the directory [d] that [ds] leads
    to: every directory of [ds] that is not there is made; a file in the
    place of one of them is an error. *)
Fixpoint makedirs (ds : list string) (files : gmap string file)
    : result (gmap string file) :=
  match ds with
  | [] => Ok files
  | d :: ds =>
      match files !! d with
      | None => makedirs ds (<[d := Directory]> files)
      | Some Directory => makedirs ds files
      | Some _ =>
          Raise (match ds with
                 | [] => FileExistsError d
                 | inner :: _ => NotADirectoryError inner
                 end)
      end
  end.

(** [open(path, 'wb')], writing [f] and closing: the directories on the way
    must be there, and [path] must not name a directory.  Whatever file the
    name held is replaced. *)
Definition fs_write (path : string) (f : file) (files : gmap string file)
    : result (gmap string file) :=
  match List.find (λ d, negb (is_dir files d)) (ancestors path) with
  | Some d =>
      Raise (match files !! d with
             | None => FileNotFoundError path
             | Some _ => NotADirectoryError path
             end)
  | None =>
      match files !! realpath path with
      | Some Directory => Raise (IsADirectoryError path)
      | _ => Ok (<[realpath path := f]> files)
      end
  end.

(** [shutil.copyfile(src, dst)]: refused when both name one existing file;
    otherwise [src] is opened for reading, then [dst] for writing. *)
Definition fs_copyfile (src dst : string) (files : gmap string file)
    : result (gmap string file) :=
  if bool_decide (realpath src = realpath dst)
     && bool_decide (is_Some (files !! realpath src))
  then Raise (SameFileError src dst)
  else f ← fs_read files src; fs_write dst f files.

Definition copyfile (src dst : string) : M unit := on_files (fs_copyfile src dst).

(** [qanta.util.io.safe_open(path, 'wb')] and [safe_path(path)] make the
    directories on the way to [path] before the file is opened. *)
Definition make_dirs (path : string) : M unit := on_files (makedirs (ancestors path)).

(** [pickle.load(open(path, 'rb'))] *)
Definition pickle_load (path : string) : M (gmap string pyval) := λ w,
  match fs_read (fs w) path with
  | Ok (PickleFile d) => (w, Ok d)
  | Ok _ => (w, Raise (UnpicklingError path))
  | Raise e => (w, Raise e)
  end.

(** [pickle.dump(d, safe_open(path, 'wb'))] *)
Definition pickle_dump (d : gmap string pyval) (path : string) : M unit :=
  make_dirs path;;
  on_files (fs_write path (PickleFile d)).

(** [keras.models.load_model(path)] *)
Definition load_model (path : string) : M Sequential := λ w,
  match fs_read (fs w) path with
  | Ok (KerasFile m) => (w, Ok m)
  | Ok _ => (w, Raise (ValueError "not a keras model" (PStr path)))
  | Raise e => (w, Raise e)
  end.

(** [model.save(safe_path(path))] *)
Definition model_save (m : Sequential) (path : string) : M unit :=
  make_dirs path;;
  on_files (fs_write path (KerasFile m)).

End files.

(** [try: body except elasticsearch.exceptions.NotFoundError: handler] *)
Definition try_except_NotFoundError (body handler : M unit) : M unit := λ w,
  match body w with
  | (w', Raise (NotFoundError _)) => handler w'
  | r => r
  end.

(** [Index(name).delete()] *)
Definition index_delete (name : string) : M unit := λ w,
  match es w !! name with
  | None => (w, Raise (NotFoundError name))
  | Some _ => ({| fs := fs w; es := delete name (es w); events := events w |}, Ok tt)
  end.

(** [Answer.init()]: create the index of the document type if it is not
    there. *)
Definition Answer_init : M unit := λ w,
  match es w !! "qb" with
  | None => ({| fs := fs w; es := <["qb" := []]> (es w); events := events w |}, Ok tt)
  | Some _ => (w, Ok tt)
  end.

(** [answer.save()]: one more document in the index. *)
Definition Answer_save (a : Answer) : M unit := λ w,
  ({| fs := fs w;
      es := <["qb" := default [] (es w !! "qb") ++ [a]]> (es w);
      events := events w |}, Ok tt).

End Env.

Export Env.

(** ** The libraries and helpers the two files call *)

Module Iface.

(** [training_data[0]] is the list of questions, each a list of sentences;
    [training_data[1]] is the list of their answers. *)
Definition TrainingData : Type := list (list string) * list string.

(** What [preprocess_dataset] returns (the two ignored components left
    out). *)
Record Preprocessed := {
  x_train : list (list string);
  y_train : list Z;
  x_test : list (list string);
  y_test : list Z;
  pre_vocab : list string;
  pre_class_to_i : gmap string Z;
  pre_i_to_class : gmap Z string
}.

(** [qanta.preprocess] *)
Class Preprocess := {
  format_guess : string → string;
  tokenize_question : string → list string;
  preprocess_dataset : TrainingData → Preprocessed
}.

(** What a call of [load_embeddings] returns and leaves behind: the
    embedding table and the lookup, the files as they are after the call
    (it keeps a cache of the table in files of its own) and the lines it
    logged, newest first. *)
Record Embeddings := {
  we_table : list (list Q);
  we_lookup : gmap string Z;
  we_files : gmap string file;
  we_log : list string
}.

(** [qanta.guesser.nn].  [create_load_embeddings_function tmp target] is the
    function [nn.create_load_embeddings_function(tmp, target, log)] returns,
    called with [vocab], [expand_glove] and [mask_zero] on the files as they
    are. *)
Class NN := {
  create_load_embeddings_function :
    string → string → list string → pyval → bool → gmap string file → Embeddings;
  convert_text_to_embeddings_indices : list string → gmap string Z → list Z;
  compute_n_classes : list string → Z;
  compute_max_len : TrainingData → Z;
  tf_format : list (list Z) → Z → Z → list (list Z)
}.

(** [numpy.argsort] with its default [kind]. *)
Class Numpy := {
  argsort : list Q → list nat
}.

(** keras: the network computes one row of class probabilities from one
    encoded question; [fit_files] are the files as [model.fit] leaves them
    (its callbacks write: [TensorBoard] its logs). *)
Class Keras := {
  predict_row : Sequential → list Z → list Q;
  fit_files : list layer → FitArgs → gmap string file → gmap string file
}.

(** sklearn: whether fitting a pipeline raises, and what [transform] of a
    fitted pipeline returns on a list of texts when the pipeline has that
    method. *)
Class Sklearn := {
  fit_error : Pipeline → option exn;
  transform : Pipeline → list string → list Z
}.

(** elasticsearch: the hits, with their scores, of the filtered
    [multi_match] query over the documents of an index. *)
Class Elastic := {
  execute : list Answer → string → bool → list (Answer * Q)
}.

(** [CachedWikipedia()[page].content] *)
Class Wikipedia := {
  cw_content : string → result string
}.

(** [qanta.config.conf], the options the two files read. *)
Record Conf := {
  es_min_appearances : pyval;
  es_n_cores : pyval;
  conf_rnn_cell : pyval;
  conf_min_answers : pyval;
  conf_expand_we : pyval
}.

End Iface.

Export Iface.

(** ** elasticsearch_wikidata.py *)

Module ES.
Section code.
Context `{!Os, !Preprocess, !Sklearn, !Elastic, !Wikipedia}.

Definition IS_HUMAN_MODEL_PICKLE : string := "is_human_model.pickle".

(** [ElasticSearchIndex.build] *)
Definition build (documents : gmap string string) (is_human_map : gmap string bool)
    : M unit :=
  try_except_NotFoundError (index_delete "qb")
    (log_info "Could not delete non-existent index, creating new index..." []);;
  Answer_init;;
  mapM (λ page : string,
    content ← lift (cw_content page);
    qb ← lift (getitem documents page);
    human ← lift (getitem is_human_map page);
    Answer_save {| page := page; wiki_content := content;
                   qb_content := qb; is_human := human |})
    (map_to_list documents).*1;;
  mret tt.

(** [ElasticSearchIndex.search] *)
Definition search (text : string) (is_human : bool) : M (list (string * Q)) := λ w,
  match es w !! "qb" with
  | None => (w, Raise (NotFoundError "qb"))
  | Some docs => (w, Ok (map (λ r, (page r.1, r.2)) (execute docs text is_human)))
  end.

(** [create_instance_of_map]: [parsed_item_map.items()] in the order of the
    pickled dict. *)
Definition create_instance_of_map (formatted_answers : gset string)
    : M (gmap string (gset string)) :=
  d ← pickle_load "output/wikidata.pickle";
  v ← lift (getitem d "parsed_item_map");
  match v with
  | PItemMap parsed_item_map =>
      mret (foldl (λ (instance_of_map : gmap string (gset string)) item,
              let '(page, properties) := item in
              let guess := format_guess page in
              match properties !! "instance of" with
              | Some types =>
                  if decide (guess ∈ formatted_answers) then
                    if decide (0 < length types)%nat
                    then <[guess := list_to_set types]> instance_of_map
                    else instance_of_map
                  else instance_of_map
              | None => instance_of_map
              end) ∅ parsed_item_map)
  | _ => raise (AttributeError "items")
  end.

(** [create_is_human_map] *)
Definition create_is_human_map (instance_of_map : gmap string (gset string))
    : gmap string bool :=
  map_fold (λ p types (is_human_map : gmap string bool),
    if decide ("Human" ∈ types) then <[p := true]> is_human_map
    else <[p := false]> is_human_map) ∅ instance_of_map.

(** [format_human_data] *)
Definition format_human_data (is_human_map : gmap string bool)
    (questions : list (list string)) (pages : list string)
    : result (list string * list Z) :=
  data ← mapM (λ qp : list string * string,
    let full_text := join_space qp.1 in
    let p := format_guess qp.2 in
    human ← getitem is_human_map p;
    mret (full_text, int_of_bool human)) (zip questions pages);
  mret (data.*1, data.*2).

(** [create_human_model] *)
Definition create_human_model (x_data : list string) (y_data : list Z)
    : result Pipeline :=
  let pipeline := {| steps := [("tfidf", TfidfVectorizer (1, 2) 2);
                               ("ridge", RidgeClassifier)];
                     fit_texts := x_data; fit_labels := y_data |} in
  match fit_error pipeline with
  | Some e => Raise e
  | None => Ok pipeline
  end.

Record ElasticSearchWikidataGuesser := {
  is_human_model : pyval
}.

(** [__init__(is_human_model=None)] *)
Definition init : ElasticSearchWikidataGuesser := {| is_human_model := PNone |}.

(** The documents [train] aggregates: one paragraph per answer page. *)
Definition aggregate (training_data : TrainingData) : gmap string string :=
  foldl (λ (documents : gmap string string) sa,
    let '(sentences, ans) := sa in
    let page := format_guess ans in
    let paragraph := join_space sentences in
    match documents !! page with
    | Some text => <[page := text +:+ " " +:+ paragraph]> documents
    | None => <[page := paragraph]> documents
    end) ∅ (zip training_data.1 training_data.2).

(** [train]; the guesser it returns is [self] after the call. *)
Definition train (self : ElasticSearchWikidataGuesser) (training_data : TrainingData)
    : M ElasticSearchWikidataGuesser :=
  let answers : gset string := list_to_set (format_guess <$> training_data.2) in
  log_info "Training is_human model..." [];;
  instance_of_map ← create_instance_of_map answers;
  let is_human_map := create_is_human_map instance_of_map in
  xy ← lift (format_human_data is_human_map training_data.1 training_data.2);
  model ← lift (create_human_model xy.1 xy.2);
  let self := {| is_human_model := PPipeline model |} in
  log_info "Building Elastic Search Index..." [];;
  let documents := aggregate training_data in
  build documents is_human_map;;
  mret self.

(** The estimators that have a [transform] method: a vectorizer has one, a
    [RidgeClassifier] has [predict] and [decision_function] and no
    [transform]. *)
Definition has_transform (e : estimator) : bool :=
  match e with
  | TfidfVectorizer _ _ => true
  | RidgeClassifier => false
  end.

(** [is_human_model.transform(X)].  [None] has no such attribute; a
    [Pipeline] hands the call to its last step and has the attribute only
    when that step has it. *)
Definition model_transform (is_human_model : pyval) (X : list string)
    : result (list Z) :=
  match is_human_model with
  | PPipeline p =>
      match last (steps p) with
      | Some (_, e) =>
          if has_transform e then Ok (transform p X)
          else Raise (AttributeError "transform")
      | None => Raise (AttributeError "transform")
      end
  | _ => Raise (AttributeError "transform")
  end.

(** The function [guess] maps over the questions. *)
Definition ir_search (self : ElasticSearchWikidataGuesser) (max_n_guesses : option Z)
    (query : string) : M (list (string * Q)) :=
  labels ← lift (model_transform (is_human_model self) [query]);
  label ← lift (getindex labels 0);
  let is_human := bool_of_int label in
  hits ← search query is_human;
  mret (slice_to max_n_guesses hits).

(** [guess]: the Spark context maps [ir_search] over the questions and
    collects the results in the order of the questions. *)
Definition guess (self : ElasticSearchWikidataGuesser) (questions : list string)
    (max_n_guesses : option Z) : M (list (list (string * Q))) :=
  mapM (ir_search self max_n_guesses) questions.

(** [targets] *)
Definition targets : list string := [IS_HUMAN_MODEL_PICKLE].

(** [load] *)
Definition load (directory : string) : M ElasticSearchWikidataGuesser :=
  d ← pickle_load (os_path_join directory IS_HUMAN_MODEL_PICKLE);
  model ← lift (getitem d "is_human_model");
  mret {| is_human_model := model |}.

(** [save] *)
Definition save (self : ElasticSearchWikidataGuesser) (directory : string) : M unit :=
  pickle_dump {[ "is_human_model" := is_human_model self ]}
    (os_path_join directory IS_HUMAN_MODEL_PICKLE).

End code.
End ES.

(** ** rnn.py *)

Module RNN.
Section code.
Context `{!Os, !Preprocess, !NN, !Numpy, !Keras}.

Definition RNN_WE_TMP : string := "/tmp/qanta/deep/rnn_we.pickle".
Definition RNN_WE : string := "rnn_we.pickle".
Definition RNN_MODEL_TMP_TARGET : string := "/tmp/qanta/deep/final_rnn.keras".
Definition RNN_MODEL_TARGET : string := "final_rnn.keras".
Definition RNN_PARAMS_TARGET : string := "rnn_params.pickle".

Record RNNGuesser := {
  rnn_cell : pyval;
  min_answers : pyval;
  expand_we : pyval;
  embeddings : pyval;
  embedding_lookup : pyval;
  max_len : pyval;
  i_to_class : pyval;
  class_to_i : pyval;
  vocab : pyval;
  n_classes : pyval;
  model : option Sequential;
  max_n_epochs : pyval;
  batch_size : pyval;
  max_patience : pyval
}.

(** [load_embeddings = nn.create_load_embeddings_function(RNN_WE_TMP,
    RNN_WE, log)], called: the files and the log are as the call leaves
    them. *)
Definition load_embeddings (vocab : list string) (expand_glove : pyval)
    (mask_zero : bool) : M (list (list Q) * gmap string Z) := λ w,
  let r := create_load_embeddings_function RNN_WE_TMP RNN_WE
             vocab expand_glove mask_zero (fs w) in
  ({| fs := we_files r; es := es w;
      events := ((λ msg, LogInfo msg []) <$> we_log r) ++ events w |},
   Ok (we_table r, we_lookup r)).

(** [model.fit(x, y, ...)] *)
Definition fit (m : Sequential) (args : FitArgs) : M unit := λ w,
  ({| fs := fit_files (layers m) args (fs w); es := es w;
      events := Fit (layers m) args :: events w |}, Ok tt).

(** [__init__] *)
Definition init (conf : Conf) : RNNGuesser := {|
  rnn_cell := conf_rnn_cell conf;
  min_answers := conf_min_answers conf;
  expand_we := conf_expand_we conf;
  embeddings := PNone;
  embedding_lookup := PNone;
  max_len := PNone;
  i_to_class := PNone;
  class_to_i := PNone;
  vocab := PNone;
  n_classes := PNone;
  model := None;
  max_n_epochs := PInt 100;
  batch_size := PInt 128;
  max_patience := PInt 5
|}.

(** [self.model = m] *)
Definition set_model (self : RNNGuesser) (m : Sequential) : RNNGuesser := {|
  rnn_cell := rnn_cell self;
  min_answers := min_answers self;
  expand_we := expand_we self;
  embeddings := embeddings self;
  embedding_lookup := embedding_lookup self;
  max_len := max_len self;
  i_to_class := i_to_class self;
  class_to_i := class_to_i self;
  vocab := vocab self;
  n_classes := n_classes self;
  model := Some m;
  max_n_epochs := max_n_epochs self;
  batch_size := batch_size self;
  max_patience := max_patience self
|}.

(** [dump_parameters] *)
Definition dump_parameters (self : RNNGuesser) : gmap string pyval :=
  list_to_map [
    ("rnn_cell", rnn_cell self);
    ("min_answers", min_answers self);
    ("embeddings", embeddings self);
    ("embedding_lookup", embedding_lookup self);
    ("max_len", max_len self);
    ("i_to_class", i_to_class self);
    ("class_to_i", class_to_i self);
    ("vocab", vocab self);
    ("n_classes", n_classes self);
    ("max_n_epochs", max_n_epochs self);
    ("batch_size", batch_size self);
    ("max_patience", max_patience self)
  ].

(** [load_parameters]; the guesser it returns is [self] after the call. *)
Definition load_parameters (self : RNNGuesser) (params : gmap string pyval)
    : result RNNGuesser :=
  v_rnn_cell ← getitem params "rnn_cell";
  v_min_answers ← getitem params "min_answers";
  v_embeddings ← getitem params "embeddings";
  v_embedding_lookup ← getitem params "embedding_lookup";
  v_max_len ← getitem params "max_len";
  v_i_to_class ← getitem params "i_to_class";
  v_class_to_i ← getitem params "class_to_i";
  v_vocab ← getitem params "vocab";
  v_n_classes ← getitem params "n_classes";
  v_max_n_epochs ← getitem params "max_n_epochs";
  v_batch_size ← getitem params "batch_size";
  v_max_patience ← getitem params "max_patience";
  mret {|
    rnn_cell := v_rnn_cell;
    min_answers := v_min_answers;
    expand_we := expand_we self;
    embeddings := v_embeddings;
    embedding_lookup := v_embedding_lookup;
    max_len := v_max_len;
    i_to_class := v_i_to_class;
    class_to_i := v_class_to_i;
    vocab := v_vocab;
    n_classes := v_n_classes;
    model := model self;
    max_n_epochs := v_max_n_epochs;
    batch_size := v_batch_size;
    max_patience := v_max_patience
  |}.

(** [v == s] for a string literal [s] *)
Definition eq_str (v : pyval) (s : string) : bool :=
  match v with
  | PStr t => bool_decide (t = s)
  | _ => false
  end.

(** [targets] *)
Definition targets : list string := [RNN_PARAMS_TARGET].

(** [build_model] *)
Definition build_model (self : RNNGuesser) : result Sequential :=
  cell ← (if eq_str (rnn_cell self) "lstm" then Ok LSTM
          else if eq_str (rnn_cell self) "gru" then Ok GRU
          else if eq_str (rnn_cell self) "simple_rnn" then Ok SimpleRNN
          else Raise (ValueError "rnn_cell must be lstm, gru, or simple_rdd and was: {}"
                        (rnn_cell self)));
  rows ← match embeddings self with
         | PArray rows => Ok rows
         | _ => Raise (AttributeError "shape")
         end;
  mret {|
    layers := [
      Embedding (Z.of_nat (length rows)) 300 true (max_len self) [rows];
      Recurrent cell 300;
      Dropout (1 # 2);
      Dense (n_classes self);
      BatchNormalization;
      Dropout (1 # 2);
      Activation "softmax"
    ];
    loss := "sparse_categorical_crossentropy";
    optimizer := "adam";
    metrics := ["sparse_categorical_accuracy"];
    fitted := None
  |}.

(** The encoding both [train] and [guess] apply to token sequences:
    [np.array(nn.tf_format([nn.convert_text_to_embeddings_indices(q, lookup)
    for q in xs], max_len, 0))]. *)
Definition encode (lookup : gmap string Z) (max_len : Z) (xs : list (list string))
    : list (list Z) :=
  tf_format ((λ q, convert_text_to_embeddings_indices q lookup) <$> xs) max_len 0.

(** [train]; the guesser it returns is [self] after the call. *)
Definition train (self : RNNGuesser) (training_data : TrainingData) : M RNNGuesser :=
  log_info "Preprocessing training data..." [];;
  let pre := preprocess_dataset training_data in
  log_info "Creating embeddings..." [];;
  el ← load_embeddings (pre_vocab pre) (expand_we self) true;
  let embeddings := el.1 in
  let embedding_lookup := el.2 in
  log_info "Converting dataset to embeddings..." [];;
  let x_train :=
    (λ q, convert_text_to_embeddings_indices q embedding_lookup) <$> x_train pre in
  let x_test :=
    (λ q, convert_text_to_embeddings_indices q embedding_lookup) <$> x_test pre in
  let n_classes := compute_n_classes training_data.2 in
  let max_len := compute_max_len training_data in
  let self := {|
    rnn_cell := rnn_cell self;
    min_answers := min_answers self;
    expand_we := expand_we self;
    embeddings := PArray embeddings;
    embedding_lookup := PStrIntDict embedding_lookup;
    max_len := PInt max_len;
    i_to_class := PIntStrDict (pre_i_to_class pre);
    class_to_i := PStrIntDict (pre_class_to_i pre);
    vocab := PStrList (pre_vocab pre);
    n_classes := PInt n_classes;
    model := model self;
    max_n_epochs := max_n_epochs self;
    batch_size := batch_size self;
    max_patience := max_patience self
  |} in
  let x_train := tf_format x_train max_len 0 in
  let x_test := tf_format x_test max_len 0 in
  log_info "Building model..." [];;
  m ← lift (build_model self);
  log_info "Training model..." [];;
  let args := {|
    fit_x := x_train;
    fit_y := y_train pre;
    fit_validation_x := x_test;
    fit_validation_y := y_test pre;
    fit_batch_size := batch_size self;
    fit_epochs := max_n_epochs self;
    fit_callbacks :=
      [TensorBoard;
       EarlyStopping (max_patience self) "val_sparse_categorical_accuracy"];
    fit_verbose := 2
  |} in
  fit m args;;
  let m := {| layers := layers m; loss := loss m; optimizer := optimizer m;
              metrics := metrics m; fitted := Some args |} in
  let self := set_model self m in
  log_info "Done training" [];;
  log_info "Saving model..." [];;
  model_save m RNN_MODEL_TMP_TARGET;;
  log_info "Printing model training history..." [];;
  emit (InfoHistory args);;
  mret self.

(** The body of the loop of [guess], for one row of class probabilities. *)
Definition guess_row (self : RNNGuesser) (max_n_guesses : option Z) (row : list Q)
    : result (list (string * Q)) :=
  let sorted_labels := slice_to max_n_guesses (argsort (Qopp <$> row)) in
  sorted_guesses ← mapM (λ i : nat,
    match i_to_class self with
    | PIntStrDict d => getitem_int d (Z.of_nat i)
    | _ => Raise TypeError
    end) sorted_labels;
  sorted_scores ← mapM (getindex row) sorted_labels;
  mret (zip sorted_guesses sorted_scores).

(** [guess] *)
Definition guess (self : RNNGuesser) (questions : list string)
    (max_n_guesses : option Z) : M (list (list (string * Q))) :=
  log_info "Generating {} guesses for each of {} questions"
    [from_option PInt PNone max_n_guesses; PInt (Z.of_nat (length questions))];;
  x_test ← lift (mapM (λ q : string,
    match embedding_lookup self with
    | PStrIntDict lookup =>
        Ok (convert_text_to_embeddings_indices (tokenize_question q) lookup)
    | _ => Raise TypeError
    end) questions);
  x_test ← lift (match max_len self with
                 | PInt n => Ok (tf_format x_test n 0)
                 | _ => Raise TypeError
                 end);
  m ← lift (match model self with
            | Some m => Ok m
            | None => Raise (AttributeError "predict_proba")
            end);
  emit (PredictProba m x_test (batch_size self));;
  let class_probabilities := predict_row m <$> x_test in
  lift (mapM (guess_row self max_n_guesses) class_probabilities).

(** [save] *)
Definition save (self : RNNGuesser) (directory : string) : M unit :=
  copyfile RNN_MODEL_TMP_TARGET (os_path_join directory RNN_MODEL_TARGET);;
  pickle_dump (dump_parameters self) (os_path_join directory RNN_PARAMS_TARGET).

(** [load]; [conf] is the configuration [RNNGuesser()] reads. *)
Definition load (conf : Conf) (directory : string) : M RNNGuesser :=
  let guesser := init conf in
  m ← load_model (os_path_join directory RNN_MODEL_TARGET);
  let guesser := set_model guesser m in
  params ← pickle_load (os_path_join directory RNN_PARAMS_TARGET);
  lift (load_parameters guesser params).

End code.
End RNN.


(** ** What the code relies on from the libraries *)

Module Contract.

(** [row[i]], for [i] within the row. *)
Definition at_index (row : list Q) (i : nat) : Q := default 0%Q (row !! i).

(** [i_to_class[i]], for a class id [i] of the map. *)
Definition class_page (i_to_class : gmap Z string) (i : nat) : string :=
  default "" (i_to_class !! Z.of_nat i).

(** Index [a] may stand before index [b] in an ascending sort of [keys]. *)
Definition key_le (keys : list Q) (a b : nat) : Prop :=
  (at_index keys a <= at_index keys b)%Q.

(** [numpy.argsort] returns the indices [0 .. n-1] in an order in which the
    keys ascend.  Its default [kind] is not a stable sort, so nothing is said
    of the order of indices with equal keys. *)
Class NumpyLaws `{!Numpy} : Prop := {
  argsort_permutation : ∀ keys, argsort keys ≡ₚ seq 0 (length keys);
  argsort_sorted : ∀ keys, StronglySorted (key_le keys) (argsort keys)
}.

(** [nn.tf_format] returns one row per sequence, and that row is what the
    sequence alone is formatted to. *)
Class NNLaws `{!NN} : Prop :=
  tf_format_rows : ∀ xs max_len pad,
    Forall2 (λ x r, tf_format [x] max_len pad = [r]) xs (tf_format xs max_len pad).

(** Ascending [f], and [tie] among indices of equal [f]. *)
Definition lex (f : nat → Q) (tie : relation nat) (a b : nat) : Prop :=
  (f a < f b)%Q ∨ ((f a == f b)%Q ∧ tie a b).

#[export] Instance lex_dec f tie `{!RelDecision tie} : RelDecision (lex f tie).
Proof.
  intros a b. unfold lex.
  destruct (Qlt_le_dec (f a) (f b)) as [Hlt|Hle].
  - left. by left.
  - destruct (Qeq_dec (f a) (f b)) as [Heq|Hne].
    + destruct (decide (tie a b)) as [Hab|Hab].
      * left. by right.
      * right. intros [Hlt|[_ ?]]; [|done]. by apply Qle_not_lt in Hle.
    + right. intros [Hlt|[? _]]; [|done]. by apply Qle_not_lt in Hle.
Defined.

(** Probabilities descending, equal probabilities by ascending class
    index. *)
Definition before (row : list Q) : relation nat :=
  lex (λ i, - at_index row i)%Q le.

Definition by_probability (row : list Q) : list nat :=
  merge_sort (before row) (seq 0 (length row)).

(** No two classes of the row have the same probability. *)
Definition tie_free (row : list Q) : Prop :=
  ∀ i j x y, row !! i = Some x → row !! j = Some y → (x == y)%Q → i = j.

(** The row a question is encoded to. *)
Definition encode_question `{!Preprocess, !NN} (lookup : gmap string Z) (max_len : Z)
    (q : string) : list Z :=
  default [] (head (tf_format
    [convert_text_to_embeddings_indices (tokenize_question q) lookup] max_len 0)).

(** What training leaves: the ElasticSearch guesser holds a fitted pipeline
    [p] and the index ['qb'] holds [docs]; the RNN guesser holds its lookup,
    its maximum length, its network [m] and a class map that names every
    class the network scores. *)
Definition es_ready (self : ES.ElasticSearchWikidataGuesser)
    (p : Pipeline) (docs : list Answer) (w : world) : Prop :=
  ES.is_human_model self = PPipeline p ∧ es w !! "qb" = Some docs.

Definition rnn_ready `{!Keras} (self : RNN.RNNGuesser) (lookup : gmap string Z)
    (max_len : Z) (m : Sequential) (d : gmap Z string) : Prop :=
  RNN.embedding_lookup self = PStrIntDict lookup
  ∧ RNN.max_len self = PInt max_len
  ∧ RNN.model self = Some m
  ∧ RNN.i_to_class self = PIntStrDict d
  ∧ ∀ x i, (i < length (predict_row m x))%nat → is_Some (d !! Z.of_nat i).

(** The cell families [build_model] knows. *)
Definition supported_cell (v : pyval) : bool :=
  RNN.eq_str v "lstm" || RNN.eq_str v "gru" || RNN.eq_str v "simple_rnn".

(** The keys of the parameter blob, and two guessers agreeing on the twelve
    fields the blob holds. *)
Definition parameter_names : list string :=
  ["rnn_cell"; "min_answers"; "embeddings"; "embedding_lookup"; "max_len";
   "i_to_class"; "class_to_i"; "vocab"; "n_classes"; "max_n_epochs";
   "batch_size"; "max_patience"].

Definition same_parameters (a b : RNN.RNNGuesser) : Prop :=
  RNN.rnn_cell a = RNN.rnn_cell b
  ∧ RNN.min_answers a = RNN.min_answers b
  ∧ RNN.embeddings a = RNN.embeddings b
  ∧ RNN.embedding_lookup a = RNN.embedding_lookup b
  ∧ RNN.max_len a = RNN.max_len b
  ∧ RNN.i_to_class a = RNN.i_to_class b
  ∧ RNN.class_to_i a = RNN.class_to_i b
  ∧ RNN.vocab a = RNN.vocab b
  ∧ RNN.n_classes a = RNN.n_classes b
  ∧ RNN.max_n_epochs a = RNN.max_n_epochs b
  ∧ RNN.batch_size a = RNN.batch_size b
  ∧ RNN.max_patience a = RNN.max_patience b.

(** The parameter fields of a guesser are the values of the blob. *)
Definition parameters_of (params : gmap string pyval) (g : RNN.RNNGuesser) : Prop :=
  params !! "rnn_cell" = Some (RNN.rnn_cell g)
  ∧ params !! "min_answers" = Some (RNN.min_answers g)
  ∧ params !! "embeddings" = Some (RNN.embeddings g)
  ∧ params !! "embedding_lookup" = Some (RNN.embedding_lookup g)
  ∧ params !! "max_len" = Some (RNN.max_len g)
  ∧ params !! "i_to_class" = Some (RNN.i_to_class g)
  ∧ params !! "class_to_i" = Some (RNN.class_to_i g)
  ∧ params !! "vocab" = Some (RNN.vocab g)
  ∧ params !! "n_classes" = Some (RNN.n_classes g)
  ∧ params !! "max_n_epochs" = Some (RNN.max_n_epochs g)
  ∧ params !! "batch_size" = Some (RNN.batch_size g)
  ∧ params !! "max_patience" = Some (RNN.max_patience g).

(** What [train] has logged when it builds the model, newest first;
    [we_log] are the lines of [load_embeddings]. *)
Definition log_before_build (we_log : list string) : list event :=
  [LogInfo "Building model..." [];
   LogInfo "Converting dataset to embeddings..." []]
  ++ ((λ msg, LogInfo msg []) <$> we_log)
  ++ [LogInfo "Creating embeddings..." [];
      LogInfo "Preprocessing training data..." []].

(** What [build] stores for a page: the page, its reference content, its
    aggregated text and its human flag. *)
Definition stored `{!Wikipedia} (documents : gmap string string) (is_human_map : gmap string bool)
    (p : string) (a : Answer) : Prop :=
  page a = p
  ∧ cw_content p = Ok (wiki_content a)
  ∧ documents !! p = Some (qb_content a)
  ∧ is_human_map !! p = Some (is_human a).


(** The world after [guess]: one more log line and one more call of the
    network. *)
Definition after_guess (self : RNN.RNNGuesser) (m : Sequential) (x : list (list Z))
    (questions : list string) (k : option Z) (w : world) : world := {|
  fs := fs w;
  es := es w;
  events :=
    PredictProba m x (RNN.batch_size self)
    :: LogInfo "Generating {} guesses for each of {} questions"
         [from_option PInt PNone k; PInt (Z.of_nat (length questions))]
    :: events w
|}.

(** The errors of putting a file where [safe_open] or [safe_path] made the
    way: a file stands where a directory should be, or a directory where
    the file should be. *)
Definition saving_error (e : exn) : Prop :=
  match e with
  | FileExistsError _ | NotADirectoryError _ | IsADirectoryError _ => True
  | _ => False
  end.

(** The events that are calls of [model.fit]. *)
Definition is_fit (e : event) : bool :=
  match e with
  | Fit _ _ => true
  | _ => false
  end.

(** The cell family a configured name stands for, and the layers
    [build_model] stacks. *)
Definition cell_of (v : pyval) : option cell :=
  if RNN.eq_str v "lstm" then Some LSTM
  else if RNN.eq_str v "gru" then Some GRU
  else if RNN.eq_str v "simple_rnn" then Some SimpleRNN
  else None.

Definition built_layers (c : cell) (rows : list (list Q)) (max_len n_classes : pyval)
    : list layer :=
  [Embedding (Z.of_nat (length rows)) 300 true max_len [rows];
   Recurrent c 300;
   Dropout (1 # 2);
   Dense n_classes;
   BatchNormalization;
   Dropout (1 # 2);
   Activation "softmax"].

(** The call of [load_embeddings] in [train], on the files [files]. *)
Definition train_embeddings `{!Preprocess, !NN} (self : RNN.RNNGuesser)
    (training_data : TrainingData) (files : gmap string file) : Embeddings :=
  create_load_embeddings_function RNN.RNN_WE_TMP RNN.RNN_WE
    (pre_vocab (preprocess_dataset training_data)) (RNN.expand_we self) true files.

(** What [train] hands to [fit], the model it fits and the guesser it
    leaves, for the cell family [c] and the embeddings [el]. *)
Definition train_args `{!Preprocess, !NN} (self : RNN.RNNGuesser)
    (training_data : TrainingData) (el : Embeddings) : FitArgs :=
  let pre := preprocess_dataset training_data in
  {| fit_x := RNN.encode (we_lookup el) (compute_max_len training_data) (x_train pre);
     fit_y := y_train pre;
     fit_validation_x :=
       RNN.encode (we_lookup el) (compute_max_len training_data) (x_test pre);
     fit_validation_y := y_test pre;
     fit_batch_size := RNN.batch_size self;
     fit_epochs := RNN.max_n_epochs self;
     fit_callbacks :=
       [TensorBoard;
        EarlyStopping (RNN.max_patience self) "val_sparse_categorical_accuracy"];
     fit_verbose := 2 |}.

Definition built_model `{!Preprocess, !NN} (training_data : TrainingData) (c : cell)
    (el : Embeddings) (fitted : option FitArgs) : Sequential :=
  {| layers := built_layers c (we_table el) (PInt (compute_max_len training_data))
                 (PInt (compute_n_classes training_data.2));
     loss := "sparse_categorical_crossentropy";
     optimizer := "adam";
     metrics := ["sparse_categorical_accuracy"];
     fitted := fitted |}.

Definition trained_model `{!Preprocess, !NN} (self : RNN.RNNGuesser)
    (training_data : TrainingData) (c : cell) (el : Embeddings) : Sequential :=
  built_model training_data c el (Some (train_args self training_data el)).

Definition trained_guesser `{!Preprocess, !NN} (self : RNN.RNNGuesser)
    (training_data : TrainingData) (c : cell) (el : Embeddings) : RNN.RNNGuesser :=
  let pre := preprocess_dataset training_data in
  {| RNN.rnn_cell := RNN.rnn_cell self;
     RNN.min_answers := RNN.min_answers self;
     RNN.expand_we := RNN.expand_we self;
     RNN.embeddings := PArray (we_table el);
     RNN.embedding_lookup := PStrIntDict (we_lookup el);
     RNN.max_len := PInt (compute_max_len training_data);
     RNN.i_to_class := PIntStrDict (pre_i_to_class pre);
     RNN.class_to_i := PStrIntDict (pre_class_to_i pre);
     RNN.vocab := PStrList (pre_vocab pre);
     RNN.n_classes := PInt (compute_n_classes training_data.2);
     RNN.model := Some (trained_model self training_data c el);
     RNN.max_n_epochs := RNN.max_n_epochs self;
     RNN.batch_size := RNN.batch_size self;
     RNN.max_patience := RNN.max_patience self |}.

(** The world when [train] builds the model, and when it saves the fitted
    one: the files are those [load_embeddings] and then [fit] left. *)
Definition world_before_build `{!Preprocess, !NN} (self : RNN.RNNGuesser)
    (training_data : TrainingData) (w : world) : world :=
  let el := train_embeddings self training_data (fs w) in
  {| fs := we_files el; es := es w;
     events := log_before_build (we_log el) ++ events w |}.

Definition world_before_save `{!Preprocess, !NN, !Keras} (self : RNN.RNNGuesser)
    (training_data : TrainingData) (c : cell) (w : world) : world :=
  let el := train_embeddings self training_data (fs w) in
  let m := trained_model self training_data c el in
  let args := train_args self training_data el in
  {| fs := fit_files (layers m) args (we_files el); es := es w;
     events := [LogInfo "Saving model..." [];
                LogInfo "Done training" [];
                Fit (layers m) args;
                LogInfo "Training model..." []]
               ++ log_before_build (we_log el) ++ events w |}.

End Contract.

Export Contract.
(** ** Concrete collaborators, for running the code on examples *)

Module Demo.

(** Spaces become underscores. *)
Fixpoint underscore (s : string) : string :=
  match s with
  | EmptyString => EmptyString
  | String c s => String (if bool_decide (c = " "%char) then "_"%char else c) (underscore s)
  end.

(** The names between the slashes of a path, [cur] being what was read of
    the current one. *)
Fixpoint segments (cur : string) (s : string) : list string :=
  match s with
  | EmptyString => [cur]
  | String c s' =>
      if bool_decide (c = "/"%char) then cur :: segments "" s'
      else segments (cur +:+ String c EmptyString) s'
  end.

(** The names that count: an empty name and ['.'] stand for nothing, ['..']
    takes the name before it away. *)
Definition canonical_segments (p : string) : list string :=
  foldl (λ (stack : list string) (seg : string),
    if bool_decide (seg = "" ∨ seg = ".") then stack
    else if bool_decide (seg = "..") then take (length stack - 1) stack
    else stack ++ [seg]) [] (segments "" p).

Definition is_absolute (p : string) : bool :=
  match p with
  | String c _ => bool_decide (c = "/"%char)
  | EmptyString => false
  end.

Definition join_segments (absolute : bool) (segs : list string) : string :=
  (if absolute then "/" else "") +:+ String.concat "/" segs.

(** A file system without links: the canonical name of a path is the path
    without its empty, ['.'] and ['..'] names, and the directories on the way
    are what stands before each of its slashes. *)
#[export] Instance os : Os := {|
  realpath p := join_segments (is_absolute p) (canonical_segments p);
  ancestors p :=
    (λ n, join_segments (is_absolute p) (take n (canonical_segments p)))
      <$> seq 1 (length (canonical_segments p) - 1)
|}.

(** The two answers are the two classes. *)
Definition classes : gmap string Z := {[ "Plato" := 0; "Napoleon" := 1 ]}.

#[export] Instance preprocess : Preprocess := {|
  format_guess := underscore;
  tokenize_question q := [q];
  preprocess_dataset td := {|
    x_train := td.1; y_train := (λ a, default 0 (classes !! a)) <$> td.2;
    x_test := []; y_test := [];
    pre_vocab := concat td.1;
    pre_class_to_i := classes;
    pre_i_to_class := {[ 0 := "Plato"; 1 := "Napoleon" ]}
  |}
|}.

#[export] Instance sklearn : Sklearn := {|
  fit_error _ := None;
  transform p texts := (λ _, 1) <$> texts
|}.

#[export] Instance elastic : Elastic := {|
  execute docs text human :=
    (λ a, (a, 1 # 1)%Q) <$> filter (λ a, is_human a = human) docs
|}.

#[export] Instance wikipedia : Wikipedia := {|
  cw_content p := Ok ("About " +:+ p)
|}.

(** Embeddings built anew at every call, without a cache.  Unknown words go
    to index 1; sequences are cut or padded on the right. *)
#[export] Instance nn : NN := {|
  create_load_embeddings_function tmp target vocab expand mask_zero files := {|
    we_table := [[0%Q]; [1%Q]; [(1 # 2)%Q]];
    we_lookup := list_to_map (zip vocab (Z.of_nat <$> seq 2 (length vocab)));
    we_files := files;
    we_log := ["Creating word embeddings"]
  |};
  convert_text_to_embeddings_indices ws lookup := (λ w, default 1 (lookup !! w)) <$> ws;
  compute_n_classes answers := Z.of_nat (length (remove_dups answers));
  compute_max_len td := 3;
  tf_format xs n pad :=
    (λ x, take (Z.to_nat n) (x ++ replicate (Z.to_nat n - length x) pad)) <$> xs
|}.

(** A sort by key that leaves equal keys in ascending index order. *)
#[export] Instance numpy : Numpy := {|
  argsort keys := merge_sort (lex (at_index keys) le) (seq 0 (length keys))
|}.

(** How often the class [c] is among the labels [ys]. *)
Definition share (c : Z) (ys : list Z) : Q :=
  (Z.of_nat (length (filter (λ y, y = c) ys)) # Pos.of_nat (length ys))%Q.

(** A network that has learnt how often each of the two classes is the
    answer, and nothing else; its [TensorBoard] callback writes one file. *)
#[export] Instance keras : Keras := {|
  predict_row m x :=
    match fitted m with
    | Some a => [share 0 (fit_y a); share 1 (fit_y a)]
    | None => [(1 # 2)%Q; (1 # 2)%Q]
    end;
  fit_files ls a files :=
    <["logs/events.out.tfevents" := DataFile "events"]> (<["logs" := Directory]> files)
|}.

Definition empty_world : world := {| fs := ∅; es := ∅; events := [] |}.

(** A world whose knowledge base knows no page. *)
Definition bare_wikidata : world := {|
  fs := {[ "output" := Directory;
           "output/wikidata.pickle" := PickleFile {[ "parsed_item_map" := PItemMap [] ]} ]};
  es := ∅;
  events := []
|}.

(** A knowledge base that knows both answers of the training data below, and
    that both are humans. *)
Definition wikidata : world := {|
  fs := {[ "output" := Directory;
           "output/wikidata.pickle" := PickleFile {[ "parsed_item_map" :=
             PItemMap [("Plato", {[ "instance of" := ["Human"; "Philosopher"] ]});
                       ("Napoleon", {[ "instance of" := ["Human"] ]})] ]} ]};
  es := ∅;
  events := []
|}.

Definition training_data : TrainingData :=
  ([["greek"; "philosopher"]; ["french"; "emperor"]], ["Plato"; "Napoleon"]).

(** Training data in which Napoleon is the answer twice, and training data
    in which Plato is. *)
Definition rnn_training_data : TrainingData :=
  ([["greek"; "philosopher"]; ["french"; "emperor"]; ["french"; "general"]],
   ["Plato"; "Napoleon"; "Napoleon"]).

Definition other_training_data : TrainingData :=
  ([["greek"; "philosopher"]; ["greek"; "teacher"]; ["french"; "emperor"]],
   ["Plato"; "Plato"; "Napoleon"]).

Definition conf : Conf := {|
  es_min_appearances := PInt 1;
  es_n_cores := PInt 1;
  conf_rnn_cell := PStr "gru";
  conf_min_answers := PInt 1;
  conf_expand_we := PBool false
|}.

(** The world and the guesser after training the ElasticSearch guesser. *)
Definition es_trained_world : world :=
  (ES.train ES.init training_data wikidata).1.

Definition es_trained : ES.ElasticSearchWikidataGuesser :=
  match (ES.train ES.init training_data wikidata).2 with
  | Ok self => self
  | Raise _ => ES.init
  end.

(** The world and the guesser after training the RNN guesser, in a world
    that has a directory ['models']. *)
Definition models_world : world :=
  {| fs := {[ "models" := Directory ]}; es := ∅; events := [] |}.

Definition rnn_trained_world : world :=
  (RNN.train (RNN.init conf) rnn_training_data models_world).1.

Definition rnn_trained : RNN.RNNGuesser :=
  match (RNN.train (RNN.init conf) rnn_training_data models_world).2 with
  | Ok self => self
  | Raise _ => RNN.init conf
  end.

(** The world and the guesser after another guesser was trained next, on
    the other training data. *)
Definition other_trained_world : world :=
  (RNN.train (RNN.init conf) other_training_data rnn_trained_world).1.

Definition other_trained : RNN.RNNGuesser :=
  match (RNN.train (RNN.init conf) other_training_data rnn_trained_world).2 with
  | Ok self => self
  | Raise _ => RNN.init conf
  end.

(** The first guesser saved after the second one was trained, and what
    [load] then makes of the directory. *)
Definition resaved_world : world :=
  (RNN.save rnn_trained "models" other_trained_world).1.

Definition reloaded : RNN.RNNGuesser :=
  match (RNN.load conf "models" resaved_world).2 with
  | Ok self => self
  | Raise _ => RNN.init conf
  end.

(** What the trained guessers hold. *)
Definition rnn_lookup : gmap string Z :=
  match RNN.embedding_lookup rnn_trained with PStrIntDict d => d | _ => ∅ end.

Definition rnn_max_len : Z :=
  match RNN.max_len rnn_trained with PInt n => n | _ => 0 end.

Definition no_model : Sequential :=
  {| layers := []; loss := ""; optimizer := ""; metrics := []; fitted := None |}.

Definition rnn_model : Sequential := default no_model (RNN.model rnn_trained).

Definition other_model : Sequential := default no_model (RNN.model other_trained).

Definition rnn_classes : gmap Z string :=
  match RNN.i_to_class rnn_trained with PIntStrDict d => d | _ => ∅ end.

(** A directory holding a model file and a parameter blob that differs from
    everything the configuration and [__init__] would set. *)
Definition stored_blob : gmap string pyval :=
  list_to_map [
    ("rnn_cell", PStr "lstm"); ("min_answers", PInt 7); ("embeddings", PArray [[1%Q]]);
    ("embedding_lookup", PStrIntDict {[ "plato" := 1 ]}); ("max_len", PInt 4);
    ("i_to_class", PIntStrDict {[ 0 := "Plato" ]});
    ("class_to_i", PStrIntDict {[ "Plato" := 0 ]}); ("vocab", PStrList ["plato"]);
    ("n_classes", PInt 1); ("max_n_epochs", PInt 3); ("batch_size", PInt 16);
    ("max_patience", PInt 2)
  ].

Definition stored_world : world := {|
  fs := {[ "models" := Directory;
           "models/final_rnn.keras" := KerasFile rnn_model;
           "models/rnn_params.pickle" := PickleFile stored_blob ]};
  es := ∅;
  events := []
|}.

End Demo.

(** * Properties *)

(** ** The two monads *)

Section monads.
Context {A B : Type}.
Implicit Types (f : A → result B) (l : list A) (r : list B).

Lemma mapM_result_Ok_inv f l r :
  mapM f l = Ok r → Forall2 (λ x y, f x = Ok y) l r.
Proof.
  revert r. induction l as [|x l IH]; intros r; simpl.
  - intros [= <-]. constructor.
  - unfold mbind, result_bind. destruct (f x) as [y|e] eqn:Hx; [|done].
    destruct (mapM f l) as [k|e] eqn:Hl; [|done].
    intros [= <-]. constructor; [done | by apply IH].
Qed.

Lemma mapM_result_Ok_intro f l r :
  Forall2 (λ x y, f x = Ok y) l r → mapM f l = Ok r.
Proof.
  induction 1 as [|x y l r Hx _ IH]; simpl; [done|].
  rewrite Hx. simpl. by rewrite IH.
Qed.

Lemma mapM_result_Raise_inv f l e :
  mapM f l = Raise e → ∃ x, x ∈ l ∧ f x = Raise e.
Proof.
  induction l as [|x l IH]; simpl; [done|].
  unfold mbind, result_bind. destruct (f x) as [y|e'] eqn:Hx.
  - destruct (mapM f l) as [k|e'] eqn:Hl; [done|].
    intros [= ->]. destruct IH as (z & Hz & Hfz); [done|].
    exists z. split; [by right | done].
  - intros [= ->]. exists x. split; [by left | done].
Qed.

Lemma mapM_result_fmap f (g : A → B) l :
  (∀ x, x ∈ l → f x = Ok (g x)) → mapM f l = Ok (g <$> l).
Proof.
  intros Hf. apply mapM_result_Ok_intro. apply Forall2_fmap_r, Forall_Forall2_diag.
  apply Forall_forall. intros x Hx. by apply Hf.
Qed.

Lemma mapM_result_length f l r : mapM f l = Ok r → length r = length l.
Proof. intros Hm. symmetry. by eapply Forall2_length, mapM_result_Ok_inv. Qed.
End monads.

(** ** elasticsearch_wikidata.py *)

Section es_props.
Context `{!Os, !Preprocess, !Sklearn, !Elastic, !Wikipedia}.

Lemma create_is_human_map_lookup (instance_of_map : gmap string (gset string)) p :
  ES.create_is_human_map instance_of_map !! p
  = (λ types, bool_decide ("Human" ∈ types)) <$> instance_of_map !! p.
Proof.
  unfold ES.create_is_human_map.
  induction instance_of_map as [|k types m Hk Hfold IH] using map_first_key_ind.
  - by rewrite map_fold_empty, !lookup_empty.
  - rewrite map_fold_insert_first_key by done.
    destruct (decide (k = p)) as [->|Hne].
    + rewrite lookup_insert_eq. simpl.
      case_decide; rewrite lookup_insert_eq; f_equal; symmetry;
        [by apply bool_decide_eq_true_2 | by apply bool_decide_eq_false_2].
    + rewrite (lookup_insert_ne m) by done. rewrite <- IH.
      case_decide; by rewrite lookup_insert_ne.
Qed.
End es_props.

Section es_human_map.
Context `{!Preprocess}.

(** C2 (amended): a page of the instance-of map is flagged human exactly when
    'Human' is among its types, and a page absent from that map has no flag
    at all: [format_human_data] returns the flags
    ['Human' in instance_of_map.get(p, set())] when every training answer
    is in the instance-of map, and raises [KeyError] on an answer that is
    not. *)
Theorem is_human_flag_of_known_pages :
  (∀ (instance_of_map : gmap string (gset string)) p,
      ES.create_is_human_map instance_of_map !! p
      = (λ types, bool_decide ("Human" ∈ types)) <$> instance_of_map !! p)
  ∧ (∀ (instance_of_map : gmap string (gset string)) questions pages,
      match ES.format_human_data (ES.create_is_human_map instance_of_map)
              questions pages with
      | Ok xy =>
          Forall (λ qp, is_Some (instance_of_map !! format_guess qp.2))
            (zip questions pages)
          ∧ xy.2 = (λ qp : list string * string,
                      int_of_bool (bool_decide
                        ("Human" ∈ default (∅ : gset string)
                                     (instance_of_map !! format_guess qp.2))))
                   <$> zip questions pages
      | Raise e =>
          ∃ qp, qp ∈ zip questions pages
                ∧ instance_of_map !! format_guess qp.2 = None
                ∧ e = KeyError (PStr (format_guess qp.2))
      end).
Proof.
  split; [apply create_is_human_map_lookup|].
  intros m questions pages. unfold ES.format_human_data.
  destruct (mapM _ (zip questions pages)) as [data|e] eqn:Hdata; simpl.
  - apply mapM_result_Ok_inv in Hdata.
    induction Hdata as [|qp d l data Hqp _ [IH1 IH2]]; [by split|].
    unfold getitem in Hqp. rewrite create_is_human_map_lookup in Hqp.
    destruct (m !! format_guess qp.2) as [types|] eqn:Hm; [|done].
    simpl in Hqp. injection Hqp as <-. split.
    + constructor; [by rewrite Hm | done].
    + simpl. rewrite Hm. simpl. by f_equal.
  - apply mapM_result_Raise_inv in Hdata as (qp & Hin & Hqp).
    exists qp. split; [done|].
    unfold getitem in Hqp. rewrite create_is_human_map_lookup in Hqp.
    destruct (m !! format_guess qp.2) as [types|] eqn:Hm; [done|].
    simpl in Hqp. by injection Hqp as <-.
Qed.
End es_human_map.

Section es_human_map_example.
Import Demo.

(** C2 as stated fails: an answer the knowledge base does not know makes
    [train] raise [KeyError]. *)
Lemma absent_answer_fails_train :
(ES.train ES.init ([["greek philosopher"]], ["Plato"]) Demo.bare_wikidata).2
= Raise (KeyError (PStr "Plato")).
Proof. vm_compute. reflexivity. Qed.
End es_human_map_example.


Section world_monad.
Context {A B : Type}.

Lemma bind_Ok (m : M A) (f : A → M B) w w' a :
  m w = (w', Ok a) → (m ≫= f) w = f a w'.
Proof. intros Hm. unfold mbind, M_bind. by rewrite Hm. Qed.

Lemma bind_Raise (m : M A) (f : A → M B) w w' e :
  m w = (w', Raise e) → (m ≫= f) w = (w', Raise e).
Proof. intros Hm. unfold mbind, M_bind. by rewrite Hm. Qed.

Lemma bind_lift_Ok (a : A) (f : A → M B) w : (lift (Ok a) ≫= f) w = f a w.
Proof. done. Qed.

Lemma bind_lift_Raise e (f : A → M B) w : (lift (Raise e) ≫= f) w = (w, Raise e).
Proof. done. Qed.

End world_monad.

Section world_mapM.
Context {A B : Type}.

(** A function that only reads the world maps over a list without changing
    it. *)
Lemma mapM_read_only (f : A → M B) (g : A → B) (l : list A) w :
  (∀ x, x ∈ l → f x w = (w, Ok (g x))) → mapM f l w = (w, Ok (g <$> l)).
Proof.
  induction l as [|x l IH]; intros Hf; [done|]. cbn [mapM].
  erewrite bind_Ok; [|apply Hf; by left].
  erewrite bind_Ok; [done|]. apply IH. intros y Hy. apply Hf. by right.
Qed.

Lemma mapM_read_only_Raise (f : A → M B) (x : A) (l : list A) w e :
  f x w = (w, Raise e) → mapM f (x :: l) w = (w, Raise e).
Proof. intros Hf. cbn [mapM]. by erewrite bind_Raise. Qed.
End world_mapM.

Section es_build.
Context `{!Wikipedia}.

Lemma build_loop documents is_human_map (pages : list string) docs w :
  es w !! "qb" = Some docs →
  Forall (λ p, is_Some (documents !! p) ∧ is_Some (is_human_map !! p)
               ∧ ∃ c, cw_content p = Ok c) pages →
  ∃ w' new units,
    mapM (λ page : string,
      content ← lift (cw_content page);
      qb ← lift (getitem documents page);
      human ← lift (getitem is_human_map page);
      Answer_save {| page := page; wiki_content := content;
                     qb_content := qb; is_human := human |}) pages w
    = (w', Ok units)
    ∧ fs w' = fs w ∧ events w' = events w
    ∧ es w' = <["qb" := docs ++ new]> (es w)
    ∧ Forall2 (stored documents is_human_map) pages new.
Proof.
  intros Hqb Hpages. revert docs w Hqb.
  induction Hpages as [|p pages ([qb Hd] & [human Hh] & [c Hc]) _ IH]; intros docs w Hqb.
  - exists w, [], []. rewrite app_nil_r, insert_id by done. by repeat split.
  - set (a := {| page := p; wiki_content := c; qb_content := qb; is_human := human |}).
    set (w1 := {| fs := fs w; es := <["qb" := docs ++ [a]]> (es w); events := events w |}).
    destruct (IH (docs ++ [a]) w1) as (w' & new & units & Hrun & Hfs & Hev & Hes & Hnew).
    { simpl. apply lookup_insert_eq. }
    exists w', (a :: new), (tt :: units).
    split; [|split; [|split; [|split]]].
    + cbn [mapM]. rewrite (bind_Ok _ _ w w1 tt).
      * by rewrite (bind_Ok _ _ _ _ _ Hrun).
      * rewrite Hc, bind_lift_Ok. unfold getitem. rewrite Hd, bind_lift_Ok.
        rewrite Hh, bind_lift_Ok. unfold Answer_save. by rewrite Hqb.
    + done.
    + done.
    + rewrite Hes. simpl. rewrite insert_insert_eq. by rewrite <- (assoc_L (++)).
    + constructor; [|done]. by repeat split.
Qed.
End es_build.

Section es_build_index.
Context `{!Wikipedia}.

Lemma stored_pages documents is_human_map pages new :
  Forall2 (stored documents is_human_map) pages new → page <$> new = pages.
Proof.
  induction 1 as [|p a pages new [Hp _] _ IH]; [done|]. by rewrite fmap_cons, Hp, IH.
Qed.

Lemma stored_each documents is_human_map pages new a :
  Forall2 (stored documents is_human_map) pages new → a ∈ new →
  stored documents is_human_map (page a) a.
Proof.
  induction 1 as [|p b pages new Hb _ IH]; intros Ha.
  - by apply elem_of_nil in Ha.
  - apply elem_of_cons in Ha as [->|Ha]; [|by apply IH].
    destruct Hb as [Hp Hb]. by rewrite Hp.
Qed.

Lemma elem_of_keys (documents : gmap string string) p :
  p ∈ (map_to_list documents).*1 ↔ is_Some (documents !! p).
Proof.
  rewrite list_elem_of_fmap. split.
  - intros ([k v] & -> & Hkv). apply elem_of_map_to_list in Hkv. by exists v.
  - intros [v Hv]. exists (p, v). split; [done|]. by apply elem_of_map_to_list.
Qed.

(** C8: [build] deletes the index ['qb'] when there is one and only logs a
    message when there is none, then creates it and stores one document per
    page of [documents], made of the page, its reference content, its
    aggregated text and its human flag (given that the reference content and
    the flag of every page are there to be looked up). *)
Theorem build_replaces_index (documents : gmap string string)
    (is_human_map : gmap string bool) (w : world) :
  (∀ p, is_Some (documents !! p) →
        is_Some (is_human_map !! p) ∧ ∃ c, cw_content p = Ok c) →
  ∃ w' docs,
    ES.build documents is_human_map w = (w', Ok tt)
    ∧ fs w' = fs w
    ∧ events w' = match es w !! "qb" with
                  | Some _ => events w
                  | None =>
                      LogInfo "Could not delete non-existent index, creating new index..." []
                      :: events w
                  end
    ∧ es w' !! "qb" = Some docs
    ∧ NoDup (page <$> docs)
    ∧ (∀ p, p ∈ page <$> docs ↔ is_Some (documents !! p))
    ∧ (∀ a, a ∈ docs → stored documents is_human_map (page a) a).
Proof.
  intros Hlookups.
  assert (Forall (λ p, is_Some (documents !! p) ∧ is_Some (is_human_map !! p)
                       ∧ ∃ c, cw_content p = Ok c) (map_to_list documents).*1) as Hpages.
  { apply Forall_forall. intros p Hp. apply elem_of_keys in Hp.
    split; [done|]. by apply Hlookups. }
  set (msg := "Could not delete non-existent index, creating new index...").
  set (w1 := match es w !! "qb" with
             | Some _ => {| fs := fs w; es := delete "qb" (es w); events := events w |}
             | None => {| fs := fs w; es := es w; events := LogInfo msg [] :: events w |}
             end).
  set (w2 := {| fs := fs w1; es := <["qb" := []]> (es w1); events := events w1 |}).
  assert (try_except_NotFoundError (index_delete "qb") (log_info msg []) w = (w1, Ok tt))
    as Hdelete.
  { unfold try_except_NotFoundError, index_delete, w1. by destruct (es w !! "qb"). }
  assert (es w1 !! "qb" = None) as Hgone.
  { unfold w1. destruct (es w !! "qb") eqn:Hqb; simpl; [apply lookup_delete_eq | done]. }
  assert (Answer_init w1 = (w2, Ok tt)) as Hinit.
  { unfold Answer_init. by rewrite Hgone. }
  destruct (build_loop documents is_human_map _ [] w2 (lookup_insert_eq _ _ _) Hpages)
    as (w' & new & units & Hrun & Hfs & Hev & Hes & Hnew).
  exists w', new. split; [|split; [|split; [|split; [|split; [|split]]]]].
  - unfold ES.build. fold msg.
    rewrite (bind_Ok _ _ _ _ _ Hdelete). rewrite (bind_Ok _ _ _ _ _ Hinit).
    by rewrite (bind_Ok _ _ _ _ _ Hrun).
  - rewrite Hfs. simpl. unfold w1. by destruct (es w !! "qb").
  - rewrite Hev. simpl. unfold w1. by destruct (es w !! "qb").
  - rewrite Hes. apply lookup_insert_eq.
  - rewrite (stored_pages _ _ _ _ Hnew). apply NoDup_fst_map_to_list.
  - intros p. rewrite (stored_pages _ _ _ _ Hnew). apply elem_of_keys.
  - intros a Ha. by eapply stored_each.
Qed.
End es_build_index.

Section es_build_example.
Import Demo.

Lemma build_replaces_index_witness :
  ∃ w' docs,
    ES.build {[ "Plato" := "greek philosopher" ]} {[ "Plato" := true ]} empty_world
    = (w', Ok tt)
    ∧ es w' !! "qb" = Some docs
    ∧ NoDup (page <$> docs)
    ∧ ∀ a, a ∈ docs →
           stored {[ "Plato" := "greek philosopher" ]} {[ "Plato" := true ]} (page a) a.
Proof.
  destruct (build_replaces_index
              {[ "Plato" := "greek philosopher" ]} {[ "Plato" := true ]} empty_world)
    as (w' & docs & Hrun & _ & _ & Hdocs & Hnodup & _ & Hstored).
  - intros p [text Hp]. apply lookup_singleton_Some in Hp as [<- _].
    split; [by eexists | by eexists].
  - exists w', docs. split; [exact Hrun|]. split; [exact Hdocs|].
    split; [exact Hnodup|]. exact Hstored.
Defined.
End es_build_example.

(** ** Sorting by key *)

Section lex_order.
Context (f : nat → Q) (tie : relation nat).

#[global] Instance lex_transitive `{!Transitive tie} : Transitive (lex f tie).
Proof.
  intros a b c [Hab|[Hab Tab]] [Hbc|[Hbc Tbc]]; unfold lex.
  - left. lra.
  - left. lra.
  - left. lra.
  - right. split; [lra | by transitivity b].
Qed.

#[global] Instance lex_total `{!Total tie} : Total (lex f tie).
Proof.
  intros a b. unfold lex.
  destruct (Q_dec (f a) (f b)) as [[Hlt|Hgt]|Heq].
  - left. by left.
  - right. by left.
  - destruct (total tie a b) as [Hab|Hba].
    + left. by right.
    + right. right. split; [lra | done].
Qed.

Lemma lex_le a b : lex f tie a b → (f a <= f b)%Q.
Proof. intros [Hlt|[Heq _]]; lra. Qed.
End lex_order.

Lemma StronglySorted_weaken {A} (R R' : relation A) l :
  (∀ x y, R x y → R' x y) → StronglySorted R l → StronglySorted R' l.
Proof.
  intros HR. induction 1 as [|x l _ IH Hx]; constructor; [done|].
  eapply Forall_impl; [done|]. intros y. apply HR.
Qed.

(** Any merge sort by key, whatever it does with equal keys, is an
    [argsort]. *)
Lemma merge_sort_argsort (tie : relation nat)
    `{!RelDecision tie, !Transitive tie, !Total tie} :
  @NumpyLaws {| argsort keys := merge_sort (lex (at_index keys) tie) (seq 0 (length keys)) |}.
Proof.
  split; intros keys; simpl.
  - apply merge_sort_Permutation.
  - apply StronglySorted_weaken with (R := lex (at_index keys) tie).
    + intros a b. apply lex_le.
    + apply StronglySorted_merge_sort; apply _.
Qed.

Lemma demo_numpy_laws : @NumpyLaws Demo.numpy.
Proof. apply (merge_sort_argsort le). Qed.

Lemma demo_nn_laws : @NNLaws Demo.nn.
Proof.
  intros xs n pad. simpl. apply Forall2_fmap_r, Forall_Forall2_diag, Forall_forall.
  done.
Qed.

(** ** rnn.py: decoding one row of class probabilities *)

Lemma at_index_opp row i : at_index (Qopp <$> row) i = (- at_index row i)%Q.
Proof. unfold at_index. rewrite list_lookup_fmap. by destruct (row !! i). Qed.

Lemma at_index_lookup row i x : row !! i = Some x → at_index row i = x.
Proof. unfold at_index. by intros ->. Qed.

Lemma slice_to_take {A} (k : option Z) (l : list A) :
  ∃ m, slice_to k l = take m l.
Proof.
  destruct k as [k|]; simpl.
  - case_decide; eauto.
  - exists (length l). by rewrite firstn_all.
Qed.

Lemma slice_to_length {A} (k : Z) (l : list A) :
  0 ≤ k → length (slice_to (Some k) l) = (Z.to_nat k `min` length l)%nat.
Proof. intros Hk. simpl. rewrite decide_True by done. apply length_take. Qed.

Lemma zip_fmap_diag {A B C} (f : A → B) (g : A → C) (l : list A) :
  zip (f <$> l) (g <$> l) = (λ x, (f x, g x)) <$> l.
Proof. induction l as [|x l IH]; [done|]. rewrite !fmap_cons. simpl. by rewrite IH. Qed.

Section argsort_props.
Context `{!Numpy, !NumpyLaws}.

Lemma argsort_lt keys i : i ∈ argsort keys → (i < length keys)%nat.
Proof.
  rewrite (argsort_permutation keys). rewrite elem_of_seq. lia.
Qed.

Lemma argsort_NoDup keys : NoDup (argsort keys).
Proof. rewrite (argsort_permutation keys). apply NoDup_seq. Qed.

Lemma argsort_length keys : length (argsort keys) = length keys.
Proof. rewrite (argsort_permutation keys). apply length_seq. Qed.

Lemma argsort_elem_of keys i : (i < length keys)%nat → i ∈ argsort keys.
Proof. rewrite (argsort_permutation keys). rewrite elem_of_seq. lia. Qed.

(** On a row without equal probabilities every [argsort] gives the classes
    by descending probability. *)
Lemma argsort_tie_free row :
  tie_free row → argsort (Qopp <$> row) = by_probability row.
Proof.
  intros Hfree. apply (StronglySorted_unique_strong (key_le (Qopp <$> row))).
  - intros a b Ha Hb Hab Hba.
    apply argsort_lt in Ha. rewrite length_fmap in Ha.
    unfold by_probability in Hb. rewrite merge_sort_Permutation, elem_of_seq in Hb.
    destruct Hb as [_ Hb]. simpl in Hb.
    destruct (lookup_lt_is_Some_2 row a Ha) as [x Hx].
    destruct (lookup_lt_is_Some_2 row b Hb) as [y Hy].
    unfold key_le in Hab, Hba. rewrite !at_index_opp in Hab, Hba.
    rewrite (at_index_lookup _ _ _ Hx), (at_index_lookup _ _ _ Hy) in Hab, Hba.
    apply (Hfree a b x y Hx Hy). lra.
  - apply argsort_sorted.
  - unfold by_probability.
    apply StronglySorted_weaken with (R := before row).
    + intros a b Hab. apply lex_le in Hab. unfold key_le. by rewrite !at_index_opp.
    + apply StronglySorted_merge_sort; apply _.
  - rewrite argsort_permutation. unfold by_probability.
    rewrite merge_sort_Permutation. by rewrite length_fmap.
Qed.
End argsort_props.

Section guess_row_props.
Context `{!Numpy, !NumpyLaws}.

(** The labels [guess] selects are the first ones of the [argsort]. *)
Lemma sorted_labels_prefix (k : option Z) (row : list Q) :
  ∃ rest, argsort (Qopp <$> row) = slice_to k (argsort (Qopp <$> row)) ++ rest.
Proof.
  destruct (slice_to_take k (argsort (Qopp <$> row))) as [m ->].
  exists (drop m (argsort (Qopp <$> row))). by rewrite take_drop.
Qed.

Lemma sorted_labels_lt k row i :
  i ∈ slice_to k (argsort (Qopp <$> row)) → (i < length row)%nat.
Proof.
  destruct (sorted_labels_prefix k row) as [rest Hrest]. intros Hi.
  rewrite <- (length_fmap Qopp row). apply argsort_lt.
  rewrite Hrest. apply elem_of_app. by left.
Qed.

Lemma sorted_labels_NoDup k row : NoDup (slice_to k (argsort (Qopp <$> row))).
Proof.
  destruct (sorted_labels_prefix k row) as [rest Hrest].
  pose proof (argsort_NoDup (Qopp <$> row)) as Hnd.
  rewrite Hrest in Hnd. by apply NoDup_app in Hnd as [? _].
Qed.

Lemma sorted_labels_descending k row :
  StronglySorted (λ a b, (at_index row b <= at_index row a)%Q)
    (slice_to k (argsort (Qopp <$> row))).
Proof.
  destruct (sorted_labels_prefix k row) as [rest Hrest].
  pose proof (argsort_sorted (Qopp <$> row)) as Hsorted.
  rewrite Hrest in Hsorted. apply StronglySorted_app_1_l in Hsorted.
  eapply StronglySorted_weaken; [|done].
  intros a b. unfold key_le. rewrite !at_index_opp. lra.
Qed.

Lemma sorted_labels_top k row a b :
  a ∈ slice_to k (argsort (Qopp <$> row)) → (b < length row)%nat →
  b ∉ slice_to k (argsort (Qopp <$> row)) →
  (at_index row b <= at_index row a)%Q.
Proof.
  destruct (sorted_labels_prefix k row) as [rest Hrest]. intros Ha Hb Hnb.
  pose proof (argsort_sorted (Qopp <$> row)) as Hsorted.
  assert (b ∈ rest) as Hrb.
  { rewrite <- (length_fmap Qopp row) in Hb. apply argsort_elem_of in Hb.
    rewrite Hrest in Hb. apply elem_of_app in Hb as [?|?]; done. }
  rewrite Hrest in Hsorted.
  pose proof (StronglySorted_app_1_elem_of _ _ _ a b Hsorted Ha Hrb) as Hab.
  unfold key_le in Hab. rewrite !at_index_opp in Hab. lra.
Qed.

Lemma guess_row_Ok self d k row :
  RNN.i_to_class self = PIntStrDict d →
  (∀ i, (i < length row)%nat → is_Some (d !! Z.of_nat i)) →
  RNN.guess_row self k row
  = Ok ((λ i, (class_page d i, at_index row i)) <$> slice_to k (argsort (Qopp <$> row))).
Proof.
  intros Hd Hpages. unfold RNN.guess_row. rewrite Hd.
  rewrite (mapM_result_fmap _ (class_page d)).
  - simpl. rewrite (mapM_result_fmap _ (at_index row)).
    + simpl. by rewrite zip_fmap_diag.
    + intros i Hi. apply sorted_labels_lt in Hi.
      destruct (lookup_lt_is_Some_2 row i Hi) as [x Hx].
      unfold getindex. rewrite Hx. by rewrite (at_index_lookup _ _ _ Hx).
  - intros i Hi. apply sorted_labels_lt in Hi.
    destruct (Hpages i Hi) as [p Hp]. unfold getitem_int, class_page. by rewrite Hp.
Qed.

(** [guess] decodes a row of class probabilities into the pairs (page of
    the class, probability of the class) of the classes [argsort] puts
    first: pairwise different classes of the row, as many as
    [max_n_guesses] asks for (all of them when the row is shorter), in
    descending order of probability, none of them less probable than a class
    left out.  The order among classes of equal probability is the one
    [argsort] leaves them in; on a row without equal probabilities the
    result is fixed: the classes by descending probability.  With
    [i_to_class = {0: 'Plato', 1: 'Napoleon'}], probabilities [[0.3, 0.7]]
    and [max_n_guesses = 1] the result is [[('Napoleon', 0.7)]]. *)
Theorem guess_row_top_classes (self : RNN.RNNGuesser) (d : gmap Z string) :
  RNN.i_to_class self = PIntStrDict d →
  (∀ (row : list Q) (k : option Z),
      (∀ i, (i < length row)%nat → is_Some (d !! Z.of_nat i)) →
      let sorted_labels := slice_to k (argsort (Qopp <$> row)) in
      RNN.guess_row self k row
      = Ok ((λ i, (class_page d i, at_index row i)) <$> sorted_labels)
      ∧ NoDup sorted_labels
      ∧ (∀ i, i ∈ sorted_labels → (i < length row)%nat)
      ∧ (∀ n, k = Some n → 0 ≤ n →
              length sorted_labels = (Z.to_nat n `min` length row)%nat)
      ∧ StronglySorted (λ a b, (at_index row b <= at_index row a)%Q) sorted_labels
      ∧ (∀ a b, a ∈ sorted_labels → (b < length row)%nat → b ∉ sorted_labels →
                (at_index row b <= at_index row a)%Q)
      ∧ (tie_free row → sorted_labels = slice_to k (by_probability row)))
  ∧ (d = {[ 0 := "Plato"; 1 := "Napoleon" ]} →
     RNN.guess_row self (Some 1) [(3 # 10)%Q; (7 # 10)%Q] = Ok [("Napoleon", (7 # 10)%Q)]).
Proof.
  intros Hd.
  assert (∀ (row : list Q) (k : option Z),
    (∀ i, (i < length row)%nat → is_Some (d !! Z.of_nat i)) →
    let sorted_labels := slice_to k (argsort (Qopp <$> row)) in
    RNN.guess_row self k row
    = Ok ((λ i, (class_page d i, at_index row i)) <$> sorted_labels)
    ∧ NoDup sorted_labels
    ∧ (∀ i, i ∈ sorted_labels → (i < length row)%nat)
    ∧ (∀ n, k = Some n → 0 ≤ n →
            length sorted_labels = (Z.to_nat n `min` length row)%nat)
    ∧ StronglySorted (λ a b, (at_index row b <= at_index row a)%Q) sorted_labels
    ∧ (∀ a b, a ∈ sorted_labels → (b < length row)%nat → b ∉ sorted_labels →
              (at_index row b <= at_index row a)%Q)
    ∧ (tie_free row → sorted_labels = slice_to k (by_probability row))) as Hgeneral.
  { intros row k Hpages sorted_labels. subst sorted_labels.
    split; [by apply guess_row_Ok|].
    split; [apply sorted_labels_NoDup|].
    split; [apply sorted_labels_lt|].
    split.
    { intros n -> Hn. rewrite slice_to_length by done.
      by rewrite argsort_length, length_fmap. }
    split; [apply sorted_labels_descending|].
    split; [apply sorted_labels_top|].
    intros Hfree. by rewrite argsort_tie_free. }
  split; [exact Hgeneral|].
  intros ->.
  destruct (Hgeneral [(3 # 10)%Q; (7 # 10)%Q] (Some 1)) as (Hrun & _ & _ & _ & _ & _ & Hfree).
  { intros i Hi. simpl in Hi.
    destruct i as [|[|i]]; [by eexists | by eexists | lia]. }
  rewrite Hrun, Hfree; [done|].
  intros i j x y Hi Hj Hxy.
  destruct i as [|[|i]], j as [|[|j]]; simpl in Hi, Hj; try done;
    injection Hi as <-; injection Hj as <-; by vm_compute in Hxy.
Qed.
End guess_row_props.

(** ** The two [guess] methods *)


Lemma slice_to_bound {A} (k : Z) (l : list A) :
  0 ≤ k → Z.of_nat (length (slice_to (Some k) l)) ≤ k.
Proof. intros Hk. rewrite slice_to_length by done. lia. Qed.

Section es_guess.
Context `{!Os, !Preprocess, !Sklearn, !Elastic, !Wikipedia}.

(** The pipeline [create_human_model] fits ends in the classifier. *)
Lemma create_human_model_steps x_data y_data p :
  ES.create_human_model x_data y_data = Ok p →
  steps p = [("tfidf", TfidfVectorizer (1, 2) 2); ("ridge", RidgeClassifier)]
  ∧ fit_texts p = x_data ∧ fit_labels p = y_data.
Proof.
  unfold ES.create_human_model. destruct (fit_error _); [done|]. by intros [= <-].
Qed.

(** A pipeline that ends in a [RidgeClassifier] has no [transform]. *)
Lemma model_transform_ridge p name X :
  last (steps p) = Some (name, RidgeClassifier) →
  ES.model_transform (PPipeline p) X = Raise (AttributeError "transform").
Proof. unfold ES.model_transform. by intros ->. Qed.

Lemma ir_search_no_transform self k query w e :
  ES.model_transform (ES.is_human_model self) [query] = Raise e →
  ES.ir_search self k query w = (w, Raise e).
Proof. intros Hraise. unfold ES.ir_search. by rewrite Hraise. Qed.

Lemma es_guess_no_transform self k query questions w :
  (∀ X, ES.model_transform (ES.is_human_model self) X = Raise (AttributeError "transform")) →
  ES.guess self (query :: questions) k w = (w, Raise (AttributeError "transform")).
Proof.
  intros Hraise. apply mapM_read_only_Raise. by apply ir_search_no_transform.
Qed.

(** The guesser [train] returns holds the pipeline [create_human_model]
    fitted. *)
Lemma es_train_model self training_data w w' self' :
  ES.train self training_data w = (w', Ok self') →
  ∃ x_data y_data p,
    ES.create_human_model x_data y_data = Ok p
    ∧ ES.is_human_model self' = PPipeline p.
Proof.
  unfold ES.train. intros Hrun.
  erewrite bind_Ok in Hrun; [|done]. cbn beta in Hrun.
  match type of Hrun with
  | (?m ≫= _) ?w0 = _ =>
      destruct (m w0) as [w1 [iom|e]] eqn:Hiom;
        [erewrite bind_Ok in Hrun by exact Hiom
        |by erewrite bind_Raise in Hrun by exact Hiom]
  end.
  destruct (ES.format_human_data _ _ _) as [xy|e];
    [rewrite bind_lift_Ok in Hrun | by rewrite bind_lift_Raise in Hrun].
  destruct (ES.create_human_model xy.1 xy.2) as [p|e] eqn:Hmodel;
    [rewrite bind_lift_Ok in Hrun | by rewrite bind_lift_Raise in Hrun].
  erewrite bind_Ok in Hrun; [|done]. cbn beta in Hrun.
  match type of Hrun with
  | (?m ≫= _) ?w0 = _ =>
      destruct (m w0) as [w2 [[]|e]] eqn:Hbuild;
        [erewrite bind_Ok in Hrun by exact Hbuild
        |by erewrite bind_Raise in Hrun by exact Hbuild]
  end.
  injection Hrun as _ <-. by exists xy.1, xy.2, p.
Qed.
End es_guess.

Section es_guess_untrained.
Context `{!Sklearn, !Elastic}.

Lemma es_guess_untrained k w :
  ES.guess ES.init [] k w = (w, Ok [])
  ∧ ∀ query questions,
      ES.guess ES.init (query :: questions) k w = (w, Raise (AttributeError "transform")).
Proof. split; [done|]. intros query questions. by apply mapM_read_only_Raise. Qed.
End es_guess_untrained.

Section rnn_guess.
Context `{!Preprocess, !NN, !Numpy, !Keras, !NNLaws, !NumpyLaws}.

Lemma tf_format_fmap xs max_len pad :
  tf_format xs max_len pad = (λ x, default [] (head (tf_format [x] max_len pad))) <$> xs.
Proof.
  pose proof (tf_format_rows xs max_len pad) as Hrows.
  induction Hrows as [|x r xs rs Hx _ IH]; [done|].
  rewrite fmap_cons, Hx. simpl. by rewrite IH.
Qed.

Lemma encode_questions lookup max_len questions :
  RNN.encode lookup max_len (tokenize_question <$> questions)
  = encode_question lookup max_len <$> questions.
Proof.
  unfold RNN.encode. rewrite tf_format_fmap, <- !list_fmap_compose. done.
Qed.

Lemma rnn_guess_run self lookup max_len m d questions k w :
  RNN.embedding_lookup self = PStrIntDict lookup →
  RNN.max_len self = PInt max_len →
  RNN.model self = Some m →
  RNN.i_to_class self = PIntStrDict d →
  (∀ x i, (i < length (predict_row m x))%nat → is_Some (d !! Z.of_nat i)) →
  RNN.guess self questions k w
  = (after_guess self m (encode_question lookup max_len <$> questions) questions k w,
     Ok ((λ q, let row := predict_row m (encode_question lookup max_len q) in
               (λ i, (class_page d i, at_index row i))
                 <$> slice_to k (argsort (Qopp <$> row))) <$> questions)).
Proof.
  intros Hlookup Hlen Hm Hd Hpages. unfold RNN.guess.
  erewrite bind_Ok; [|done].
  rewrite Hlookup, Hlen, Hm.
  rewrite (mapM_result_fmap _
    (λ q, convert_text_to_embeddings_indices (tokenize_question q) lookup)) by done.
  rewrite bind_lift_Ok, bind_lift_Ok, bind_lift_Ok.
  erewrite bind_Ok; [|done].
  assert (tf_format
            ((λ q, convert_text_to_embeddings_indices (tokenize_question q) lookup)
               <$> questions) max_len 0
          = encode_question lookup max_len <$> questions) as ->.
  { rewrite <- encode_questions. unfold RNN.encode. by rewrite <- list_fmap_compose. }
  unfold lift, after_guess. simpl. f_equal.
  rewrite (mapM_result_fmap _
    (λ row, (λ i, (class_page d i, at_index row i))
              <$> slice_to k (argsort (Qopp <$> row)))).
  - by rewrite <- !list_fmap_compose.
  - intros row Hrow. apply list_elem_of_fmap in Hrow as (x & -> & _).
    apply guess_row_Ok; [done | apply Hpages].
Qed.
End rnn_guess.

Section rnn_guess_untrained.
Context `{!Preprocess, !NN, !Numpy, !Keras}.

Lemma rnn_guess_untrained conf questions k w :
  ∃ w' e, RNN.guess (RNN.init conf) questions k w = (w', Raise e)
          ∧ (e = TypeError ∨ e = AttributeError "predict_proba").
Proof.
  destruct questions as [|q questions]; eexists _, _;
    (split; [unfold RNN.guess; erewrite bind_Ok; [|done]; reflexivity | by left]).
Qed.
End rnn_guess_untrained.
(** ** Claims on [guess] *)


Section guess_claims.
Context `{!Os, !Preprocess, !NN, !Numpy, !Keras, !Sklearn, !Elastic, !Wikipedia}.
Context `{!NNLaws, !NumpyLaws}.

(** C1 (amended): for every list of questions and every integer [k >= 0],
    [guess] of a trained RNN guesser returns exactly [len(questions)] lists,
    the i-th one holding the guesses for the i-th question, each of length at
    most [k]. *)
Theorem guess_one_list_per_question
    (rnn_self : RNN.RNNGuesser) (lookup : gmap string Z) (max_len : Z)
    (m : Sequential) (d : gmap Z string)
    (questions : list string) (k : Z) (w : world) :
  0 ≤ k →
  rnn_ready rnn_self lookup max_len m d →
  ∃ results,
    (RNN.guess rnn_self questions (Some k) w).2 = Ok results
    ∧ length results = length questions
    ∧ (∀ i q, questions !! i = Some q →
              ∃ r, results !! i = Some r
                   ∧ RNN.guess_row rnn_self (Some k)
                       (predict_row m (encode_question lookup max_len q)) = Ok r)
    ∧ Forall (λ r, Z.of_nat (length r) ≤ k) results.
Proof.
  intros Hk (Hlookup & Hlen & Hm & Hd & Hpages).
  eexists. rewrite (rnn_guess_run _ lookup max_len m d) by done. cbn [snd].
  split; [done|]. split; [by rewrite length_fmap|]. split.
  - intros i q Hq. eexists. rewrite list_lookup_fmap, Hq.
    split; [reflexivity|]. apply guess_row_Ok; [done | apply Hpages].
  - apply Forall_fmap, Forall_forall. intros q _. cbn beta zeta.
    unfold compose. rewrite length_fmap. by apply slice_to_bound.
Qed.

(** C9: [guess] of a trained ElasticSearch guesser returns the hits of no
    search.  The pipeline [create_human_model] fits ends in a
    [RidgeClassifier], which has no [transform], so
    [is_human_model.transform([query])] is an [AttributeError]: whatever
    [max_n_guesses] is, [None] included, [guess] raises on the first
    question, before it searches, and changes nothing; only an empty list
    of questions gets an answer, the empty list. *)
Theorem es_guess_fails_on_transform
    (self self' : ES.ElasticSearchWikidataGuesser) (training_data : TrainingData)
    (w w' : world) :
  ES.train self training_data w = (w', Ok self') →
  ∃ p,
    ES.is_human_model self' = PPipeline p
    ∧ last (steps p) = Some ("ridge", RidgeClassifier)
    ∧ (∀ X, ES.model_transform (PPipeline p) X = Raise (AttributeError "transform"))
    ∧ ∀ (k : option Z) (w'' : world),
        ES.guess self' [] k w'' = (w'', Ok [])
        ∧ ∀ query questions,
            ES.guess self' (query :: questions) k w''
            = (w'', Raise (AttributeError "transform")).
Proof.
  intros Hrun.
  destruct (es_train_model _ _ _ _ _ Hrun) as (x_data & y_data & p & Hfit & Hp).
  apply create_human_model_steps in Hfit as (Hsteps & _ & _).
  assert (last (steps p) = Some ("ridge", RidgeClassifier)) as Hlast by by rewrite Hsteps.
  exists p. split; [done|]. split; [done|]. split.
  - intros X. by eapply model_transform_ridge.
  - intros k w''. split; [done|]. intros query questions.
    apply es_guess_no_transform. intros X. rewrite Hp. by eapply model_transform_ridge.
Qed.


(** C4 (amended): no [guess] checks that the guesser was trained or loaded.
    On an untrained ElasticSearch guesser [guess] returns [[]] for no question
    and otherwise fails on [None.transform]; on an untrained RNN guesser it
    fails with the [TypeError] or [AttributeError] of using [None]. *)
Theorem guess_untrained_no_guard (conf : Conf) (k : option Z) (w : world) :
  ES.guess ES.init [] k w = (w, Ok [])
  ∧ (∀ query questions,
        ES.guess ES.init (query :: questions) k w
        = (w, Raise (AttributeError "transform")))
  ∧ (∀ questions, ∃ w' e,
        RNN.guess (RNN.init conf) questions k w = (w', Raise e)
        ∧ (e = TypeError ∨ e = AttributeError "predict_proba")).
Proof.
  split; [apply es_guess_untrained|]. split; [apply es_guess_untrained|].
  intros questions. apply rnn_guess_untrained.
Qed.
End guess_claims.

Section guess_examples.
Import Demo.
#[local] Existing Instance demo_numpy_laws.
#[local] Existing Instance demo_nn_laws.

Lemma demo_es_train :
  ES.train ES.init training_data wikidata = (es_trained_world, Ok es_trained).
Proof. vm_compute. reflexivity. Qed.

Lemma demo_rnn_ready : rnn_ready rnn_trained rnn_lookup rnn_max_len rnn_model rnn_classes.
Proof.
  repeat split; try (vm_compute; reflexivity).
  intros x i Hi.
  assert (length (predict_row rnn_model x) = 2%nat) as Hrow by (vm_compute; reflexivity).
  rewrite Hrow in Hi.
  destruct i as [|[|i]]; [vm_compute; by eexists | vm_compute; by eexists | lia].
Qed.

Lemma demo_rnn_width x : length (predict_row rnn_model x) = 2%nat.
Proof. vm_compute. reflexivity. Qed.

Lemma guess_one_list_per_question_witness :
  ∃ results,
    (RNN.guess rnn_trained ["emperor"; "who"] (Some 1) rnn_trained_world).2 = Ok results
    ∧ length results = 2%nat
    ∧ Forall (λ r, Z.of_nat (length r) ≤ 1) results.
Proof.
  destruct (guess_one_list_per_question
              rnn_trained rnn_lookup rnn_max_len rnn_model rnn_classes
              ["emperor"; "who"] 1 rnn_trained_world
              ltac:(lia) demo_rnn_ready)
    as (results & Hrun & Hlen & _ & Hbound).
  exists results. repeat split; done.
Defined.

(** C1 as stated fails for a negative [k]: of the two classes the network
    scores, [[:-1]] drops the last one only, and the one that stays is more
    than [-1] guesses. *)
Lemma negative_bound_not_respected :
  (RNN.guess rnn_trained ["emperor"] (Some (-1)) rnn_trained_world).2
  = Ok [[("Napoleon", (2 # 3)%Q)]]
  ∧ ¬ Z.of_nat (length [("Napoleon", (2 # 3)%Q)]) ≤ -1.
Proof. split; [vm_compute; reflexivity | simpl; lia]. Qed.

Lemma es_guess_fails_on_transform_witness :
  ES.guess es_trained ["emperor"] None es_trained_world
  = (es_trained_world, Raise (AttributeError "transform")).
Proof.
  destruct (es_guess_fails_on_transform ES.init es_trained training_data
              wikidata es_trained_world demo_es_train)
    as (p & _ & _ & _ & Hguess).
  apply (Hguess None es_trained_world).
Defined.


(** C4 as stated fails: an untrained ElasticSearch guesser asked no question
    answers [[]], and asked one it fails on [None.transform]. *)
Lemma untrained_guess_not_guarded :
  ES.guess ES.init [] (Some 1) empty_world = (empty_world, Ok [])
  ∧ (ES.guess ES.init ["emperor"] (Some 1) empty_world).2
    = Raise (AttributeError "transform").
Proof. split; reflexivity. Qed.

Lemma guess_row_top_classes_witness :
  RNN.guess_row rnn_trained (Some 1) [(3 # 10)%Q; (7 # 10)%Q]
  = Ok [("Napoleon", (7 # 10)%Q)].
Proof.
  apply (guess_row_top_classes rnn_trained rnn_classes).
  - vm_compute. reflexivity.
  - vm_compute. reflexivity.
Defined.
End guess_examples.
(** ** The file system *)

Lemma on_files_cases (op : gmap string file → result (gmap string file)) (w : world) :
  match op (fs w) with
  | Ok files => on_files op w = ({| fs := files; es := es w; events := events w |}, Ok tt)
  | Raise e => on_files op w = (w, Raise e)
  end.
Proof. unfold on_files. by destruct (op (fs w)). Qed.

Section files_props.
Context `{!Os}.

Lemma makedirs_keeps ds files files' p f :
  makedirs ds files = Ok files' → files !! p = Some f → files' !! p = Some f.
Proof.
  revert files. induction ds as [|d ds IH]; intros files; simpl.
  - by intros [= <-].
  - destruct (files !! d) as [[| | |]|] eqn:Hd; try done.
    + by apply IH.
    + intros Hrun Hp. apply (IH _ Hrun).
      rewrite lookup_insert_ne; [done|]. intros <-. by rewrite Hd in Hp.
Qed.

Lemma makedirs_new ds files files' p f :
  makedirs ds files = Ok files' → files' !! p = Some f →
  files !! p = Some f ∨ (files !! p = None ∧ f = Directory ∧ p ∈ ds).
Proof.
  revert files. induction ds as [|d ds IH]; intros files; simpl.
  - intros [= <-]. by left.
  - destruct (files !! d) as [[| | |]|] eqn:Hd; try done.
    + intros Hrun Hp. destruct (IH _ Hrun Hp) as [?|(? & ? & ?)]; [by left|].
      right. split; [done|]. split; [done|]. by right.
    + intros Hrun Hp. destruct (IH _ Hrun Hp) as [Hold|(Hnone & -> & Hin)].
      * destruct (decide (d = p)) as [<-|Hne].
        -- rewrite lookup_insert_eq in Hold. injection Hold as <-.
           right. split; [done|]. split; [done|]. by left.
        -- rewrite lookup_insert_ne in Hold by done. by left.
      * destruct (decide (d = p)) as [<-|Hne].
        -- by rewrite lookup_insert_eq in Hnone.
        -- rewrite lookup_insert_ne in Hnone by done.
           right. split; [done|]. split; [done|]. by right.
Qed.

Lemma makedirs_made ds files files' :
  makedirs ds files = Ok files' → Forall (λ d, is_dir files' d = true) ds.
Proof.
  revert files. induction ds as [|d ds IH]; intros files; simpl; [constructor|].
  destruct (files !! d) as [[| | |]|] eqn:Hd; try done.
  - intros Hrun. constructor; [|by eapply IH].
    unfold is_dir. by rewrite (makedirs_keeps _ _ _ _ _ Hrun Hd).
  - intros Hrun. constructor; [|by eapply IH].
    unfold is_dir. erewrite (makedirs_keeps _ _ _ d Directory Hrun); [done|].
    apply lookup_insert_eq.
Qed.

(** Making directories fails only on a file in the place of a directory. *)
Lemma makedirs_Raise ds files e :
  makedirs ds files = Raise e →
  ∃ d, e = FileExistsError d ∨ e = NotADirectoryError d.
Proof.
  revert files. induction ds as [|d ds IH]; intros files; simpl; [done|].
  destruct (files !! d) as [[| | |]|] eqn:Hd; try (by apply IH);
    destruct ds; intros [= <-]; eexists; eauto.
Qed.

Lemma fs_write_Ok path f files files' :
  fs_write path f files = Ok files' → files' = <[realpath path := f]> files.
Proof.
  unfold fs_write. destruct (List.find _ _); [done|].
  destruct (files !! realpath path) as [[| | |]|]; by intros [= <-].
Qed.

(** Writing where the directories on the way are there fails only on a
    directory in the place of the file. *)
Lemma fs_write_made path f files :
  Forall (λ d, is_dir files d = true) (ancestors path) →
  fs_write path f files = Ok (<[realpath path := f]> files)
  ∨ (fs_write path f files = Raise (IsADirectoryError path)
     ∧ files !! realpath path = Some Directory).
Proof.
  intros Hdirs. unfold fs_write.
  destruct (List.find _ _) as [d|] eqn:Hfind.
  - apply List.find_some in Hfind as [Hin Hd]. rewrite Forall_forall in Hdirs.
    apply list_elem_of_In in Hin. rewrite (Hdirs d Hin) in Hd. done.
  - destruct (files !! realpath path) as [[| | |]|]; auto.
Qed.

Lemma fs_read_Ok path files f :
  fs_read files path = Ok f → files !! realpath path = Some f ∧ f ≠ Directory.
Proof.
  unfold fs_read. destruct (files !! realpath path) as [[| | |]|]; try done;
    by intros [= <-].
Qed.

(** A copy that returns has put the file [src] names under the name of
    [dst], which is another one. *)
Lemma fs_copyfile_Ok src dst files files' :
  fs_copyfile src dst files = Ok files' →
  ∃ f, files !! realpath src = Some f ∧ f ≠ Directory
       ∧ realpath src ≠ realpath dst
       ∧ files' = <[realpath dst := f]> files.
Proof.
  unfold fs_copyfile.
  destruct (bool_decide (realpath src = realpath dst)
            && bool_decide (is_Some (files !! realpath src))) eqn:Hsame; [done|].
  destruct (fs_read files src) as [f|e] eqn:Hread; [|done]. simpl.
  intros Hwrite. apply fs_read_Ok in Hread as [Hf Hnd].
  exists f. split; [done|]. split; [done|]. split.
  - intros Heq. apply andb_false_iff in Hsame as [Hne|Hnone].
    + by apply bool_decide_eq_false in Hne.
    + apply bool_decide_eq_false in Hnone. apply Hnone. by eexists.
  - by apply fs_write_Ok in Hwrite.
Qed.

(** What [model.save(safe_path(path))] and [pickle.dump(d, safe_open(path,
    'wb'))] do: they put the file under the name of [path] and make the
    directories on the way, or fail on a file where a directory should be or
    a directory where the file should be. *)
Lemma save_file_cases (path : string) (f : file) (w : world) :
  (∃ files,
      makedirs (ancestors path) (fs w) = Ok files
      ∧ (make_dirs path ≫= λ _, on_files (fs_write path f)) w
        = ({| fs := <[realpath path := f]> files; es := es w; events := events w |}, Ok tt))
  ∨ (∃ w' e,
      (make_dirs path ≫= λ _, on_files (fs_write path f)) w = (w', Raise e)
      ∧ es w' = es w ∧ events w' = events w
      ∧ saving_error e).
Proof.
  unfold make_dirs. pose proof (on_files_cases (makedirs (ancestors path)) w) as Hdirs.
  destruct (makedirs (ancestors path) (fs w)) as [files|e] eqn:Hmk.
  - set (w1 := {| fs := files; es := es w; events := events w |}) in *.
    pose proof (on_files_cases (fs_write path f) w1) as Hwrite.
    destruct (fs_write_made path f files (makedirs_made _ _ _ Hmk)) as [Hok|[Hraise _]].
    + left. exists files. split; [done|].
      erewrite bind_Ok by exact Hdirs. cbn [fs w1] in Hwrite. by rewrite Hok in Hwrite.
    + right. exists w1, (IsADirectoryError path).
      erewrite bind_Ok by exact Hdirs. cbn [fs w1] in Hwrite. rewrite Hraise in Hwrite.
      by repeat split.
  - right. exists w, e. erewrite bind_Raise by exact Hdirs.
    split; [done|]. split; [done|]. split; [done|].
    by destruct (makedirs_Raise _ _ _ Hmk) as [d [-> | ->]].
Qed.

(** They do put the file there when the directories can be made and the
    name is not that of a directory. *)
Lemma save_file_Ok (path : string) (f : file) (w : world) files :
  makedirs (ancestors path) (fs w) = Ok files →
  files !! realpath path ≠ Some Directory →
  (make_dirs path ≫= λ _, on_files (fs_write path f)) w
  = ({| fs := <[realpath path := f]> files; es := es w; events := events w |}, Ok tt).
Proof.
  intros Hmk Hnd. unfold make_dirs.
  pose proof (on_files_cases (makedirs (ancestors path)) w) as Hdirs. rewrite Hmk in Hdirs.
  erewrite bind_Ok by exact Hdirs.
  set (w1 := {| fs := files; es := es w; events := events w |}).
  pose proof (on_files_cases (fs_write path f) w1) as Hwrite. cbn [fs w1] in Hwrite.
  destruct (fs_write_made path f files (makedirs_made _ _ _ Hmk)) as [Hok|[_ Hdir]];
    [|done].
  by rewrite Hok in Hwrite.
Qed.
End files_props.
(** ** rnn.py: building and training the model *)

Lemma supported_cell_spec v :
  supported_cell v = true ↔ v = PStr "lstm" ∨ v = PStr "gru" ∨ v = PStr "simple_rnn".
Proof.
  unfold supported_cell, RNN.eq_str. destruct v as [| | |s| | | | | |]; simpl;
    try (split; [done | by intros [?|[?|?]]]).
  rewrite !orb_true_iff, !bool_decide_eq_true. split.
  - intros [[->| ->]| ->]; auto.
  - intros [[= ->]|[[= ->]|[= ->]]]; auto.
Qed.

Lemma cell_of_supported v : supported_cell v = true → ∃ c, cell_of v = Some c.
Proof.
  unfold supported_cell, cell_of.
  destruct (RNN.eq_str v "lstm"), (RNN.eq_str v "gru"), (RNN.eq_str v "simple_rnn");
    try done; by eexists.
Qed.

Lemma cell_of_unsupported v : supported_cell v = false → cell_of v = None.
Proof.
  unfold supported_cell, cell_of.
  by destruct (RNN.eq_str v "lstm"), (RNN.eq_str v "gru"), (RNN.eq_str v "simple_rnn").
Qed.

Section rnn_build.
Context `{!Os, !Preprocess, !NN, !Numpy, !Keras}.

Lemma build_model_unsupported self :
  supported_cell (RNN.rnn_cell self) = false →
  RNN.build_model self
  = Raise (ValueError "rnn_cell must be lstm, gru, or simple_rdd and was: {}"
             (RNN.rnn_cell self)).
Proof.
  unfold supported_cell, RNN.build_model. intros Hcell.
  apply orb_false_iff in Hcell as [Hcell Hrnn]. apply orb_false_iff in Hcell as [Hlstm Hgru].
  by rewrite Hlstm, Hgru, Hrnn.
Qed.

Lemma build_model_supported self :
  supported_cell (RNN.rnn_cell self) = true →
  (∀ msg arg, RNN.build_model self ≠ Raise (ValueError msg arg))
  ∧ (∀ rows, RNN.embeddings self = PArray rows → ∃ m, RNN.build_model self = Ok m).
Proof.
  unfold supported_cell, RNN.build_model. intros Hcell. split.
  - intros msg arg.
    destruct (RNN.eq_str (RNN.rnn_cell self) "lstm"),
             (RNN.eq_str (RNN.rnn_cell self) "gru"),
             (RNN.eq_str (RNN.rnn_cell self) "simple_rnn"); try done;
      simpl; by destruct (RNN.embeddings self).
  - intros rows ->.
    destruct (RNN.eq_str (RNN.rnn_cell self) "lstm"),
             (RNN.eq_str (RNN.rnn_cell self) "gru"),
             (RNN.eq_str (RNN.rnn_cell self) "simple_rnn"); try done;
      simpl; by eexists.
Qed.

Lemma build_model_layers self c rows :
  cell_of (RNN.rnn_cell self) = Some c →
  RNN.embeddings self = PArray rows →
  RNN.build_model self
  = Ok {| layers := built_layers c rows (RNN.max_len self) (RNN.n_classes self);
          loss := "sparse_categorical_crossentropy";
          optimizer := "adam";
          metrics := ["sparse_categorical_accuracy"];
          fitted := None |}.
Proof.
  unfold cell_of, RNN.build_model. intros Hc ->.
  destruct (RNN.eq_str (RNN.rnn_cell self) "lstm");
    [|destruct (RNN.eq_str (RNN.rnn_cell self) "gru");
      [|destruct (RNN.eq_str (RNN.rnn_cell self) "simple_rnn"); [|done]]];
    by injection Hc as <-.
Qed.

(** [train] with a cell family [build_model] does not know: the error of
    [build_model], after the embeddings were loaded and four lines of its
    own were logged, and nothing else. *)
Lemma train_unsupported self training_data w :
  supported_cell (RNN.rnn_cell self) = false →
  RNN.train self training_data w
  = (world_before_build self training_data w,
     Raise (ValueError "rnn_cell must be lstm, gru, or simple_rdd and was: {}"
              (RNN.rnn_cell self))).
Proof.
  intros Hcell. unfold RNN.train.
  do 5 (erewrite bind_Ok; [|done]).
  rewrite build_model_unsupported by done. rewrite bind_lift_Raise.
  unfold world_before_build, log_before_build, train_embeddings. cbn [fs es events].
  by rewrite <- !(assoc_L (++)).
Qed.

(** [train] with a cell family [build_model] knows, up to the point where it
    saves the fitted model. *)
Lemma train_to_save self training_data w c :
  cell_of (RNN.rnn_cell self) = Some c →
  let el := train_embeddings self training_data (fs w) in
  RNN.train self training_data w
  = (model_save (trained_model self training_data c el) RNN.RNN_MODEL_TMP_TARGET
     ≫= λ _, log_info "Printing model training history..." []
     ≫= λ _, emit (InfoHistory (train_args self training_data el))
     ≫= λ _, mret (trained_guesser self training_data c el))
      (world_before_save self training_data c w).
Proof.
  intros Hc el. unfold RNN.train.
  do 5 (erewrite bind_Ok; [|done]).
  erewrite build_model_layers; [|exact Hc|reflexivity].
  rewrite bind_lift_Ok.
  do 4 (erewrite bind_Ok; [|done]).
  unfold world_before_save, log_before_build, train_embeddings, trained_model,
    built_model, trained_guesser, train_args, RNN.encode, RNN.set_model in *.
  cbn [fs es events layers loss optimizer metrics fst snd].
  rewrite <- !(assoc_L (++)). reflexivity.
Qed.

(** [train] with a cell family [build_model] knows calls [fit] and then
    either saves the fitted model at the temporary path and returns, or
    fails on saving it. *)
Lemma train_outcome self training_data w c :
  cell_of (RNN.rnn_cell self) = Some c →
  let el := train_embeddings self training_data (fs w) in
  let m := trained_model self training_data c el in
  let w3 := world_before_save self training_data c w in
  (∃ files,
      makedirs (ancestors RNN.RNN_MODEL_TMP_TARGET) (fs w3) = Ok files
      ∧ RNN.train self training_data w
        = ({| fs := <[realpath RNN.RNN_MODEL_TMP_TARGET := KerasFile m]> files;
              es := es w;
              events := [InfoHistory (train_args self training_data el);
                         LogInfo "Printing model training history..." []]
                        ++ events w3 |},
           Ok (trained_guesser self training_data c el)))
  ∨ (∃ w' e,
      RNN.train self training_data w = (w', Raise e)
      ∧ es w' = es w ∧ events w' = events w3 ∧ saving_error e).
Proof.
  intros Hc el m w3. rewrite (train_to_save _ _ _ c Hc). fold el m w3.
  unfold model_save.
  destruct (save_file_cases RNN.RNN_MODEL_TMP_TARGET (KerasFile m) w3)
    as [(files & Hmk & Hsave)|(w' & e & Hsave & Hes & Hev & He)].
  - left. exists files. split; [done|].
    erewrite bind_Ok by exact Hsave.
    erewrite bind_Ok; [|done]. erewrite bind_Ok; [|done]. reflexivity.
  - right. exists w', e. erewrite bind_Raise by exact Hsave. done.
Qed.

(** It returns when the directories of the temporary path can be made and
    that path does not name a directory. *)
Lemma train_returns self training_data w c files :
  cell_of (RNN.rnn_cell self) = Some c →
  makedirs (ancestors RNN.RNN_MODEL_TMP_TARGET)
    (fs (world_before_save self training_data c w)) = Ok files →
  files !! realpath RNN.RNN_MODEL_TMP_TARGET ≠ Some Directory →
  ∃ w' self', RNN.train self training_data w = (w', Ok self').
Proof.
  intros Hc Hmk Hnd. rewrite (train_to_save _ _ _ c Hc). cbn zeta. unfold model_save.
  erewrite bind_Ok by (by apply save_file_Ok).
  erewrite bind_Ok; [|done]. erewrite bind_Ok; [|done]. by eexists _, _.
Qed.
End rnn_build.
Section rnn_train_claims.
Context `{!Os, !Preprocess, !NN, !Numpy, !Keras}.

(** A [train] that returns: what it returns and what it leaves. *)
Lemma train_Ok_inv self training_data w w' self' :
  RNN.train self training_data w = (w', Ok self') →
  ∃ c, cell_of (RNN.rnn_cell self) = Some c
       ∧ let el := train_embeddings self training_data (fs w) in
         self' = trained_guesser self training_data c el
         ∧ es w' = es w
         ∧ events w'
           = [InfoHistory (train_args self training_data el);
              LogInfo "Printing model training history..." []]
             ++ events (world_before_save self training_data c w)
         ∧ fs w' !! realpath RNN.RNN_MODEL_TMP_TARGET
           = Some (KerasFile (trained_model self training_data c el)).
Proof.
  intros Hrun.
  destruct (supported_cell (RNN.rnn_cell self)) eqn:Hcell;
    [|by rewrite train_unsupported in Hrun].
  destruct (cell_of_supported _ Hcell) as [c Hc]. exists c. split; [done|].
  destruct (train_outcome self training_data w c Hc)
    as [(files & _ & Hok)|(w1 & e & Hraise & _)];
    [|by rewrite Hrun in Hraise].
  rewrite Hrun in Hok. injection Hok as -> ->. cbn zeta.
  split; [done|]. split; [done|]. split; [done|]. cbn [fs]. apply lookup_insert_eq.
Qed.

Lemma not_Fit_log_before_build we_log ls a : Fit ls a ∉ log_before_build we_log.
Proof.
  unfold log_before_build. rewrite !elem_of_app, list_elem_of_fmap.
  intros [Hin|[(msg & [=] & _)|Hin]];
    repeat (apply elem_of_cons in Hin as [[=]|Hin]); by apply elem_of_nil in Hin.
Qed.

(** C7: with an [rnn_cell] other than 'lstm', 'gru' and 'simple_rnn',
    [build_model] raises its [ValueError], and [train] ends with that error
    when it builds the model: it has loaded the embeddings and logged, no
    [fit] has run and no model was saved.  With one of the three,
    [build_model] does not raise that error and returns a model once the
    embeddings are there; [train] then gets to [fit] and runs to its end
    when the fitted model can be saved at the temporary path; the only
    errors it can end with are those of saving it. *)
Theorem build_model_checks_cell (self : RNN.RNNGuesser) (training_data : TrainingData)
    (w : world) :
  (supported_cell (RNN.rnn_cell self) = true
   ↔ RNN.rnn_cell self = PStr "lstm" ∨ RNN.rnn_cell self = PStr "gru"
     ∨ RNN.rnn_cell self = PStr "simple_rnn")
  ∧ if supported_cell (RNN.rnn_cell self) then
      (∀ msg arg, RNN.build_model self ≠ Raise (ValueError msg arg))
      ∧ (∀ rows, RNN.embeddings self = PArray rows → ∃ m, RNN.build_model self = Ok m)
      ∧ (∃ ls a, Fit ls a ∈ events (RNN.train self training_data w).1)
      ∧ (∀ c files,
           cell_of (RNN.rnn_cell self) = Some c →
           makedirs (ancestors RNN.RNN_MODEL_TMP_TARGET)
             (fs (world_before_save self training_data c w)) = Ok files →
           files !! realpath RNN.RNN_MODEL_TMP_TARGET ≠ Some Directory →
           ∃ w' self', RNN.train self training_data w = (w', Ok self'))
      ∧ match (RNN.train self training_data w).2 with
        | Ok _ => True
        | Raise e => saving_error e
        end
    else
      RNN.build_model self
      = Raise (ValueError "rnn_cell must be lstm, gru, or simple_rdd and was: {}"
                 (RNN.rnn_cell self))
      ∧ ∃ w', RNN.train self training_data w
              = (w', Raise (ValueError
                              "rnn_cell must be lstm, gru, or simple_rdd and was: {}"
                              (RNN.rnn_cell self)))
              ∧ fs w' = we_files (train_embeddings self training_data (fs w))
              ∧ es w' = es w
              ∧ events w'
                = log_before_build (we_log (train_embeddings self training_data (fs w)))
                  ++ events w
              ∧ ∀ ls a, Fit ls a ∈ events w' → Fit ls a ∈ events w.
Proof.
  split; [apply supported_cell_spec|].
  destruct (supported_cell (RNN.rnn_cell self)) eqn:Hcell.
  - destruct (build_model_supported self Hcell) as [Hno Hok].
    split; [done|]. split; [done|].
    destruct (cell_of_supported _ Hcell) as [c Hc].
    assert (∀ c files,
      cell_of (RNN.rnn_cell self) = Some c →
      makedirs (ancestors RNN.RNN_MODEL_TMP_TARGET)
        (fs (world_before_save self training_data c w)) = Ok files →
      files !! realpath RNN.RNN_MODEL_TMP_TARGET ≠ Some Directory →
      ∃ w' self', RNN.train self training_data w = (w', Ok self')) as Hreturns.
    { intros c' files. apply train_returns. }
    destruct (train_outcome self training_data w c Hc)
      as [(files & _ & Hrun)|(w' & e & Hrun & _ & Hev & He)].
    + split; [|split; [exact Hreturns|by rewrite Hrun]].
      rewrite Hrun. eexists _, _. cbn [fst events world_before_save].
      do 4 right. by left.
    + split; [|split; [exact Hreturns|by rewrite Hrun]].
      rewrite Hrun. eexists _, _. cbn [fst]. rewrite Hev. cbn [events world_before_save].
      do 2 right. by left.
  - split; [by apply build_model_unsupported|].
    eexists. split; [by apply train_unsupported|].
    split; [done|]. split; [done|]. split; [done|].
    intros ls a Hin. cbn [events world_before_build] in Hin.
    apply elem_of_app in Hin as [Hin|Hin]; [|done].
    by apply not_Fit_log_before_build in Hin.
Qed.

Lemma rnn_guess_world self lookup max_len m questions k w :
  RNN.embedding_lookup self = PStrIntDict lookup →
  RNN.max_len self = PInt max_len →
  RNN.model self = Some m →
  events (RNN.guess self questions k w).1
  = PredictProba m (RNN.encode lookup max_len (tokenize_question <$> questions))
      (RNN.batch_size self)
    :: LogInfo "Generating {} guesses for each of {} questions"
         [from_option PInt PNone k; PInt (Z.of_nat (length questions))]
    :: events w.
Proof.
  intros Hlookup Hlen Hm. unfold RNN.guess.
  erewrite bind_Ok; [|done].
  rewrite Hlookup, Hlen, Hm.
  rewrite (mapM_result_fmap _
    (λ q, convert_text_to_embeddings_indices (tokenize_question q) lookup)) by done.
  rewrite bind_lift_Ok, bind_lift_Ok, bind_lift_Ok.
  erewrite bind_Ok; [|done].
  unfold lift, RNN.encode. simpl. by rewrite <- list_fmap_compose.
Qed.

(** C6: the matrices [train] hands to [fit] and the matrix [guess] hands to
    the network are made in one way: [convert_text_to_embeddings_indices]
    with the lookup the guesser stores, then [tf_format] with the [max_len]
    it stores and pad value 0.  So a token sequence is encoded to the same
    row when training and when guessing. *)
Theorem train_and_guess_encode_alike (self0 self : RNN.RNNGuesser)
    (training_data : TrainingData) (w0 w1 : world) :
  RNN.train self0 training_data w0 = (w1, Ok self) →
  ∃ lookup max_len m args,
    RNN.embedding_lookup self = PStrIntDict lookup
    ∧ RNN.max_len self = PInt max_len
    ∧ RNN.model self = Some m
    ∧ Fit (layers m) args ∈ events w1
    ∧ fit_x args
      = RNN.encode lookup max_len (x_train (preprocess_dataset training_data))
    ∧ fit_validation_x args
      = RNN.encode lookup max_len (x_test (preprocess_dataset training_data))
    ∧ ∀ questions k w,
        events (RNN.guess self questions k w).1
        = PredictProba m (RNN.encode lookup max_len (tokenize_question <$> questions))
            (RNN.batch_size self)
          :: LogInfo "Generating {} guesses for each of {} questions"
               [from_option PInt PNone k; PInt (Z.of_nat (length questions))]
          :: events w.
Proof.
  intros Hrun.
  destruct (train_Ok_inv _ _ _ _ _ Hrun) as (c & Hc & -> & _ & Hev & _).
  set (el := train_embeddings self0 training_data (fs w0)) in *.
  exists (we_lookup el), (compute_max_len training_data),
    (trained_model self0 training_data c el), (train_args self0 training_data el).
  split; [done|]. split; [done|]. split; [done|]. split.
  { rewrite Hev. cbn [events world_before_save]. fold el. do 4 right. by left. }
  split; [done|]. split; [done|].
  intros questions k w. by apply rnn_guess_world.
Qed.
End rnn_train_claims.

Section rnn_train_example.
Import Demo.

Lemma demo_rnn_train :
  RNN.train (RNN.init conf) rnn_training_data models_world
  = (rnn_trained_world, Ok rnn_trained).
Proof. vm_compute. reflexivity. Qed.

Lemma build_model_checks_cell_witness :
  ∃ w' self', RNN.train (RNN.init conf) rnn_training_data models_world = (w', Ok self').
Proof.
  destruct (build_model_checks_cell (RNN.init conf) rnn_training_data models_world)
    as (_ & _ & _ & _ & Hreturns & _).
  apply (Hreturns GRU
    (default ∅ (match makedirs (ancestors RNN.RNN_MODEL_TMP_TARGET)
                        (fs (world_before_save (RNN.init conf) rnn_training_data GRU
                               models_world)) with
                | Ok files => Some files
                | Raise _ => None
                end))).
  - reflexivity.
  - vm_compute. reflexivity.
  - vm_compute. discriminate.
Defined.

Lemma train_and_guess_encode_alike_witness :
  ∃ lookup max_len m args,
    Fit (layers m) args ∈ events rnn_trained_world
    ∧ fit_x args = RNN.encode lookup max_len (x_train (preprocess_dataset rnn_training_data))
    ∧ events (RNN.guess rnn_trained ["greek philosopher"] (Some 1) rnn_trained_world).1
      = PredictProba m (RNN.encode lookup max_len (tokenize_question <$> ["greek philosopher"]))
          (RNN.batch_size rnn_trained)
        :: LogInfo "Generating {} guesses for each of {} questions" [PInt 1; PInt 1]
        :: events rnn_trained_world.
Proof.
  destruct (train_and_guess_encode_alike _ _ _ _ _ demo_rnn_train)
    as (lookup & max_len & m & args & _ & _ & _ & Hfit & Hx & _ & Hguess).
  exists lookup, max_len, m, args. split; [exact Hfit|]. split; [exact Hx|].
  apply Hguess.
Defined.
End rnn_train_example.
(** ** Saving and loading *)

Section files_run.
Context `{!Os}.

(** A [pickle.dump] through [safe_open] that returns made the directories
    on the way and put the blob under the name of the path. *)
Lemma pickle_dump_Ok d path w w' :
  pickle_dump d path w = (w', Ok tt) →
  ∃ files,
    makedirs (ancestors path) (fs w) = Ok files
    ∧ w' = {| fs := <[realpath path := PickleFile d]> files;
              es := es w; events := events w |}.
Proof.
  unfold pickle_dump. intros Hrun.
  destruct (save_file_cases path (PickleFile d) w)
    as [(files & Hmk & Hsave)|(w1 & e & Hsave & _)];
    rewrite Hrun in Hsave; [|done].
  injection Hsave as ->. by exists files.
Qed.

Lemma copyfile_Ok src dst w w' :
  copyfile src dst w = (w', Ok tt) →
  ∃ f, fs w !! realpath src = Some f ∧ f ≠ Directory
       ∧ realpath src ≠ realpath dst
       ∧ w' = {| fs := <[realpath dst := f]> (fs w); es := es w; events := events w |}.
Proof.
  unfold copyfile. intros Hrun.
  pose proof (on_files_cases (fs_copyfile src dst) w) as Hcases.
  destruct (fs_copyfile src dst (fs w)) as [files|e] eqn:Hcopy;
    rewrite Hrun in Hcases; [|done].
  injection Hcases as ->.
  apply fs_copyfile_Ok in Hcopy as (f & Hf & Hnd & Hne & ->). by exists f.
Qed.

Lemma pickle_load_file path w d :
  fs w !! realpath path = Some (PickleFile d) → pickle_load path w = (w, Ok d).
Proof. intros Hfile. unfold pickle_load, fs_read. by rewrite Hfile. Qed.

Lemma load_model_file path w m :
  fs w !! realpath path = Some (KerasFile m) → load_model path w = (w, Ok m).
Proof. intros Hfile. unfold load_model, fs_read. by rewrite Hfile. Qed.
End files_run.

Section es_persist.
Context `{!Os, !Sklearn, !Elastic}.

Lemma es_save_load self directory w w' :
  ES.save self directory w = (w', Ok tt) →
  ES.load directory w' = (w', Ok self).
Proof.
  unfold ES.save. intros Hsave.
  apply pickle_dump_Ok in Hsave as (files & _ & ->).
  unfold ES.load. erewrite bind_Ok;
    [|apply pickle_load_file; cbn [fs]; apply lookup_insert_eq].
  unfold getitem. rewrite lookup_singleton_eq, bind_lift_Ok. by destruct self.
Qed.
End es_persist.

Section rnn_persist.
Context `{!Os, !Preprocess, !NN, !Numpy, !Keras}.

Lemma load_dump_parameters self guesser :
  ∃ loaded,
    RNN.load_parameters guesser (RNN.dump_parameters self) = Ok loaded
    ∧ same_parameters loaded self
    ∧ RNN.expand_we loaded = RNN.expand_we guesser
    ∧ RNN.model loaded = RNN.model guesser.
Proof. eexists. split; [vm_compute; reflexivity|]. by repeat split. Qed.

Lemma dump_parameters_names self name :
  name ∈ parameter_names → is_Some (RNN.dump_parameters self !! name).
Proof.
  intros Hname. unfold parameter_names in Hname.
  repeat (apply elem_of_cons in Hname as [->|Hname]; [by eexists|]).
  by apply elem_of_nil in Hname.
Qed.

Lemma load_parameters_of params guesser :
  (∀ name, name ∈ parameter_names → is_Some (params !! name)) →
  ∃ loaded,
    RNN.load_parameters guesser params = Ok loaded
    ∧ parameters_of params loaded
    ∧ RNN.expand_we loaded = RNN.expand_we guesser
    ∧ RNN.model loaded = RNN.model guesser.
Proof.
  intros Hnames. unfold RNN.load_parameters, getitem.
  destruct (Hnames "rnn_cell") as [v1 Hk1]; [set_solver|].
  destruct (Hnames "min_answers") as [v2 Hk2]; [set_solver|].
  destruct (Hnames "embeddings") as [v3 Hk3]; [set_solver|].
  destruct (Hnames "embedding_lookup") as [v4 Hk4]; [set_solver|].
  destruct (Hnames "max_len") as [v5 Hk5]; [set_solver|].
  destruct (Hnames "i_to_class") as [v6 Hk6]; [set_solver|].
  destruct (Hnames "class_to_i") as [v7 Hk7]; [set_solver|].
  destruct (Hnames "vocab") as [v8 Hk8]; [set_solver|].
  destruct (Hnames "n_classes") as [v9 Hk9]; [set_solver|].
  destruct (Hnames "max_n_epochs") as [v10 Hk10]; [set_solver|].
  destruct (Hnames "batch_size") as [v11 Hk11]; [set_solver|].
  destruct (Hnames "max_patience") as [v12 Hk12]; [set_solver|].
  rewrite Hk1, Hk2, Hk3, Hk4, Hk5, Hk6, Hk7, Hk8, Hk9, Hk10, Hk11, Hk12. simpl.
  eexists. split; [reflexivity|]. by repeat split.
Qed.

(** [guess] reads five fields of the guesser. *)
Lemma guess_ext a b questions k w :
  RNN.embedding_lookup a = RNN.embedding_lookup b →
  RNN.max_len a = RNN.max_len b →
  RNN.model a = RNN.model b →
  RNN.i_to_class a = RNN.i_to_class b →
  RNN.batch_size a = RNN.batch_size b →
  RNN.guess a questions k w = RNN.guess b questions k w.
Proof.
  destruct a, b. simpl. intros -> -> -> -> ->. reflexivity.
Qed.

Lemma load_run conf directory w m params :
  fs w !! realpath (os_path_join directory RNN.RNN_MODEL_TARGET) = Some (KerasFile m) →
  fs w !! realpath (os_path_join directory RNN.RNN_PARAMS_TARGET)
  = Some (PickleFile params) →
  RNN.load conf directory w
  = (w, RNN.load_parameters (RNN.set_model (RNN.init conf) m) params).
Proof.
  intros Hm Hparams. unfold RNN.load.
  erewrite bind_Ok; [|by apply load_model_file].
  erewrite bind_Ok; [|by apply pickle_load_file]. done.
Qed.

(** A [save] that returns has copied the file at the temporary path to the
    directory and put the parameter blob of the guesser beside it. *)
Lemma save_Ok self directory w w' :
  RNN.save self directory w = (w', Ok tt) →
  ∃ f files,
    fs w !! realpath RNN.RNN_MODEL_TMP_TARGET = Some f ∧ f ≠ Directory
    ∧ realpath RNN.RNN_MODEL_TMP_TARGET
      ≠ realpath (os_path_join directory RNN.RNN_MODEL_TARGET)
    ∧ makedirs (ancestors (os_path_join directory RNN.RNN_PARAMS_TARGET))
        (<[realpath (os_path_join directory RNN.RNN_MODEL_TARGET) := f]> (fs w))
      = Ok files
    ∧ w' = {| fs := <[realpath (os_path_join directory RNN.RNN_PARAMS_TARGET)
                        := PickleFile (RNN.dump_parameters self)]> files;
              es := es w; events := events w |}.
Proof.
  unfold RNN.save. intros Hrun.
  destruct (copyfile RNN.RNN_MODEL_TMP_TARGET
              (os_path_join directory RNN.RNN_MODEL_TARGET) w) as [w1 [[]|e]] eqn:Hcopy;
    [erewrite bind_Ok in Hrun by exact Hcopy
    |by erewrite bind_Raise in Hrun by exact Hcopy].
  apply copyfile_Ok in Hcopy as (f & Hf & Hnd & Hne & ->).
  apply pickle_dump_Ok in Hrun as (files & Hmk & ->).
  by exists f, files.
Qed.

(** After a [save] that returned, [load] finds the copy of the file that was
    at the temporary path and the parameters of the guesser that was saved,
    given that the two files of the directory are two files. *)
Lemma save_load_run self conf directory w w' m :
  fs w !! realpath RNN.RNN_MODEL_TMP_TARGET = Some (KerasFile m) →
  RNN.save self directory w = (w', Ok tt) →
  realpath (os_path_join directory RNN.RNN_MODEL_TARGET)
  ≠ realpath (os_path_join directory RNN.RNN_PARAMS_TARGET) →
  ∃ loaded,
    RNN.load conf directory w' = (w', Ok loaded)
    ∧ same_parameters loaded self
    ∧ RNN.model loaded = Some m
    ∧ RNN.expand_we loaded = conf_expand_we conf.
Proof.
  intros Htmp Hsave Hne.
  apply save_Ok in Hsave as (f & files & Hf & _ & _ & Hmk & ->).
  rewrite Htmp in Hf. injection Hf as <-.
  destruct (load_dump_parameters self (RNN.set_model (RNN.init conf) m))
    as (loaded & Hload & Hsame & Hwe & Hmodel).
  exists loaded. split; [|done].
  erewrite load_run; [by rewrite Hload| |].
  - cbn [fs]. rewrite lookup_insert_ne by (intros Heq; by apply Hne).
    eapply makedirs_keeps; [exact Hmk|]. apply lookup_insert_eq.
  - cbn [fs]. apply lookup_insert_eq.
Qed.

(** C10: [load] returns a guesser whose twelve parameter fields are the
    values of the persisted blob, whatever the current configuration says;
    the configuration only gives [expand_we], and the model is the one of the
    model file. *)
Theorem load_overrides_configuration (conf : Conf) (directory : string) (w : world)
    (m : Sequential) (params : gmap string pyval) :
  fs w !! realpath (os_path_join directory RNN.RNN_MODEL_TARGET) = Some (KerasFile m) →
  fs w !! realpath (os_path_join directory RNN.RNN_PARAMS_TARGET)
  = Some (PickleFile params) →
  (∀ name, name ∈ parameter_names → is_Some (params !! name)) →
  ∃ guesser,
    RNN.load conf directory w = (w, Ok guesser)
    ∧ parameters_of params guesser
    ∧ RNN.model guesser = Some m
    ∧ RNN.expand_we guesser = conf_expand_we conf.
Proof.
  intros Hm Hparams Hnames.
  destruct (load_parameters_of params (RNN.set_model (RNN.init conf) m) Hnames)
    as (loaded & Hload & Hof & Hwe & Hmodel).
  exists loaded. rewrite (load_run _ _ _ m params), Hload by done. done.
Qed.

(** C5 (amended): [save] then [load] gives back a guesser that guesses as
    the saved one does, when [save] returns and, for the RNN guesser, the
    file at the temporary path is the model of the guesser that is saved.
    The ElasticSearch guesser that is loaded is the one that was saved.  For
    the RNN guesser, [load_parameters(dump_parameters())] restores the
    twelve parameter fields; [save] copies the model file [train] wrote at
    the temporary path, which right after the guesser's own [train] holds
    the guesser's model; with that file in place, the guesser that is loaded
    has the same parameters and the same model. *)
Theorem save_load_round_trip `{!Sklearn, !Elastic}
    (es_self : ES.ElasticSearchWikidataGuesser) (self : RNN.RNNGuesser)
    (conf : Conf) (directory : string) :
  (∀ w w',
      ES.save es_self directory w = (w', Ok tt) →
      ∃ loaded,
        ES.load directory w' = (w', Ok loaded)
        ∧ ES.is_human_model loaded = ES.is_human_model es_self
        ∧ ∀ questions k w'',
            ES.guess loaded questions k w'' = ES.guess es_self questions k w'')
  ∧ (∀ guesser, ∃ loaded,
        RNN.load_parameters guesser (RNN.dump_parameters self) = Ok loaded
        ∧ same_parameters loaded self)
  ∧ (∀ self0 training_data w0 w1,
        RNN.train self0 training_data w0 = (w1, Ok self) →
        ∃ m, RNN.model self = Some m
             ∧ fs w1 !! realpath RNN.RNN_MODEL_TMP_TARGET = Some (KerasFile m))
  ∧ (∀ m w1 w2,
        RNN.model self = Some m →
        fs w1 !! realpath RNN.RNN_MODEL_TMP_TARGET = Some (KerasFile m) →
        RNN.save self directory w1 = (w2, Ok tt) →
        realpath (os_path_join directory RNN.RNN_MODEL_TARGET)
        ≠ realpath (os_path_join directory RNN.RNN_PARAMS_TARGET) →
        ∃ loaded,
          RNN.load conf directory w2 = (w2, Ok loaded)
          ∧ same_parameters loaded self
          ∧ RNN.model loaded = RNN.model self
          ∧ ∀ questions k w'',
              RNN.guess loaded questions k w'' = RNN.guess self questions k w'').
Proof.
  split; [|split; [|split]].
  - intros w w' Hsave. exists es_self.
    split; [exact (es_save_load es_self directory w w' Hsave)|]. done.
  - intros guesser.
    destruct (load_dump_parameters self guesser) as (loaded & Hload & Hsame & _).
    by exists loaded.
  - intros self0 training_data w0 w1 Hrun.
    destruct (train_Ok_inv _ _ _ _ _ Hrun) as (c & _ & -> & _ & _ & Hfile).
    eexists. split; [reflexivity | exact Hfile].
  - intros m w1 w2 Hm Htmp Hsave Hne.
    destruct (save_load_run self conf directory w1 w2 m Htmp Hsave Hne)
      as (loaded & Hload & Hsame & Hmodel & _).
    exists loaded. split; [done|]. split; [done|]. split; [by rewrite Hm|].
    intros questions k w''.
    destruct Hsame as (_ & _ & _ & Hl & Hn & Hi & _ & _ & _ & _ & Hb & _).
    apply guess_ext; try done. by rewrite Hm.
Qed.
End rnn_persist.
Section persist_examples.
Import Demo.

Lemma save_load_round_trip_witness :
  (∃ loaded,
      ES.load "models" (ES.save es_trained "models" es_trained_world).1
      = ((ES.save es_trained "models" es_trained_world).1, Ok loaded)
      ∧ ES.is_human_model loaded = ES.is_human_model es_trained)
  ∧ (∃ m, RNN.model rnn_trained = Some m
          ∧ fs rnn_trained_world !! realpath RNN.RNN_MODEL_TMP_TARGET = Some (KerasFile m))
  ∧ (∃ loaded,
        RNN.load conf "models" (RNN.save rnn_trained "models" rnn_trained_world).1
        = ((RNN.save rnn_trained "models" rnn_trained_world).1, Ok loaded)
        ∧ same_parameters loaded rnn_trained
        ∧ RNN.model loaded = RNN.model rnn_trained
        ∧ RNN.guess loaded ["emperor"] (Some 1) rnn_trained_world
          = RNN.guess rnn_trained ["emperor"] (Some 1) rnn_trained_world).
Proof.
  destruct (save_load_round_trip es_trained rnn_trained conf "models")
    as (Hes & _ & Htrain & Hrnn).
  split; [|split].
  - destruct (Hes es_trained_world (ES.save es_trained "models" es_trained_world).1)
      as (loaded & Hload & Hmodel & _).
    + vm_compute. reflexivity.
    + exists loaded. split; [exact Hload | exact Hmodel].
  - exact (Htrain (RNN.init conf) rnn_training_data models_world rnn_trained_world
             demo_rnn_train).
  - destruct (Hrnn rnn_model rnn_trained_world
                (RNN.save rnn_trained "models" rnn_trained_world).1)
      as (loaded & Hload & Hsame & Hmodel & Hguess).
    + vm_compute. reflexivity.
    + vm_compute. reflexivity.
    + vm_compute. reflexivity.
    + vm_compute. discriminate.
    + exists loaded. split; [exact Hload|]. split; [exact Hsame|].
      split; [exact Hmodel | apply Hguess].
Defined.

(** C5 as stated fails: a trained guesser that is saved after another
    guesser was trained is loaded with the model of the other one, and
    guesses differently. *)
Lemma saved_after_another_training :
  RNN.train (RNN.init conf) rnn_training_data models_world
  = (rnn_trained_world, Ok rnn_trained)
  ∧ RNN.train (RNN.init conf) other_training_data rnn_trained_world
    = (other_trained_world, Ok other_trained)
  ∧ RNN.save rnn_trained "models" other_trained_world = (resaved_world, Ok tt)
  ∧ RNN.load conf "models" resaved_world = (resaved_world, Ok reloaded)
  ∧ RNN.model rnn_trained = Some rnn_model
  ∧ RNN.model reloaded = Some other_model
  ∧ fit_y <$> fitted rnn_model = Some [0; 1; 1]
  ∧ fit_y <$> fitted other_model = Some [0; 0; 1]
  ∧ (RNN.guess rnn_trained ["emperor"] (Some 1) resaved_world).2
    = Ok [[("Napoleon", (2 # 3)%Q)]]
  ∧ (RNN.guess reloaded ["emperor"] (Some 1) resaved_world).2
    = Ok [[("Plato", (2 # 3)%Q)]].
Proof.
  do 9 (split; [vm_compute; reflexivity|]). vm_compute. reflexivity.
Qed.

Lemma load_overrides_configuration_witness :
  ∃ guesser,
    RNN.load conf "models" stored_world = (stored_world, Ok guesser)
    ∧ RNN.rnn_cell guesser = PStr "lstm"
    ∧ RNN.max_n_epochs guesser = PInt 3
    ∧ RNN.batch_size guesser = PInt 16
    ∧ RNN.expand_we guesser = PBool false.
Proof.
  destruct (load_overrides_configuration conf "models" stored_world rnn_model stored_blob)
    as (guesser & Hload & Hof & _ & Hwe).
  - vm_compute. reflexivity.
  - vm_compute. reflexivity.
  - intros name Hname. unfold parameter_names in Hname.
    repeat (apply elem_of_cons in Hname as [->|Hname]; [by eexists|]).
    by apply elem_of_nil in Hname.
  - exists guesser. split; [exact Hload|].
    destruct Hof as (Hc & _ & _ & _ & _ & _ & _ & _ & _ & He & Hb & _).
    vm_compute in Hc, He, Hb.
    injection Hc as Hc. injection He as He. injection Hb as Hb.
    split; [symmetry; exact Hc|]. split; [symmetry; exact He|].
    split; [symmetry; exact Hb|]. exact Hwe.
Defined.
End persist_examples.

(** * Further properties of elasticsearch_wikidata.py *)

(** ** [create_instance_of_map] *)

Section instance_of_map.
Context `{!Os, !Preprocess}.

(** An item of [parsed_item_map] gives [guess] the types [types]: it is the
    page of an answer, and its 'instance of' list is there and not empty. *)
Definition gives (formatted_answers : gset string)
    (item : string * gmap string (list string))
    (guess : string) (types : gset string) : Prop :=
  format_guess item.1 = guess
  ∧ guess ∈ formatted_answers
  ∧ ∃ l, item.2 !! "instance of" = Some l ∧ (0 < length l)%nat ∧ types = list_to_set l.

Lemma instance_of_fold (formatted_answers : gset string) items
    (start : gmap string (gset string)) guess :
  let instance_of_map :=
    foldl (λ (instance_of_map : gmap string (gset string)) item,
             let '(page, properties) := item in
             let guess := format_guess page in
             match properties !! "instance of" with
             | Some types =>
                 if decide (guess ∈ formatted_answers) then
                   if decide (0 < length types)%nat
                   then <[guess := list_to_set types]> instance_of_map
                   else instance_of_map
                 else instance_of_map
             | None => instance_of_map
             end) start items in
  (∀ types, instance_of_map !! guess = Some types →
            start !! guess = Some types
            ∨ ∃ item, item ∈ items ∧ gives formatted_answers item guess types)
  ∧ (is_Some (start !! guess)
     ∨ (∃ item types, item ∈ items ∧ gives formatted_answers item guess types) →
     is_Some (instance_of_map !! guess)).
Proof.
  induction items as [|[page properties] items IH] using rev_ind; simpl.
  - split; [by left|]. intros [?|(item & _ & Hin & _)]; [done|].
    by apply elem_of_nil in Hin.
  - rewrite foldl_snoc. destruct IH as [IHsound IHcomplete].
    set (m := foldl _ start items) in *.
    destruct (properties !! "instance of") as [l|] eqn:Hl;
      [destruct (decide (format_guess page ∈ formatted_answers)) as [Hans|Hans];
       [destruct (decide (0 < length l)%nat) as [Hlen|Hlen]|]|].
    + (* the item sets its guess *)
      split.
      * intros types. destruct (decide (format_guess page = guess)) as [<-|Hne].
        -- rewrite lookup_insert_eq. intros [= <-]. right.
           exists (page, properties). split; [set_solver|].
           split; [done|]. split; [done|]. by exists l.
        -- rewrite lookup_insert_ne by done. intros Hm.
           destruct (IHsound types Hm) as [?|(item & Hin & Hgives)]; [by left|].
           right. exists item. split; [set_solver | done].
      * intros Hsome. destruct (decide (format_guess page = guess)) as [<-|Hne].
        -- rewrite lookup_insert_eq. by eexists.
        -- rewrite lookup_insert_ne by done. apply IHcomplete.
           destruct Hsome as [?|(item & types & Hin & Hgives)]; [by left|].
           right. exists item, types. split; [|done].
           apply elem_of_app in Hin as [?|Hin]; [done|].
           apply list_elem_of_singleton in Hin as ->. by destruct Hgives as [? _].
    + (* an empty 'instance of' list *)
      split.
      * intros types Hm. destruct (IHsound types Hm) as [?|(item & Hin & Hgives)];
          [by left|]. right. exists item. split; [set_solver | done].
      * intros Hsome. apply IHcomplete.
        destruct Hsome as [?|(item & types & Hin & Hgives)]; [by left|].
        right. exists item, types. split; [|done].
        apply elem_of_app in Hin as [?|Hin]; [done|].
        apply list_elem_of_singleton in Hin as ->.
        destruct Hgives as (_ & _ & l' & Hl' & Hpos & _). simpl in Hl'.
        rewrite Hl in Hl'. injection Hl' as <-. lia.
    + (* not the page of an answer *)
      split.
      * intros types Hm. destruct (IHsound types Hm) as [?|(item & Hin & Hgives)];
          [by left|]. right. exists item. split; [set_solver | done].
      * intros Hsome. apply IHcomplete.
        destruct Hsome as [?|(item & types & Hin & Hgives)]; [by left|].
        right. exists item, types. split; [|done].
        apply elem_of_app in Hin as [?|Hin]; [done|].
        apply list_elem_of_singleton in Hin as ->.
        destruct Hgives as (Hg & Hin' & _). simpl in Hg. by rewrite <- Hg in Hin'.
    + (* no 'instance of' property *)
      split.
      * intros types Hm. destruct (IHsound types Hm) as [?|(item & Hin & Hgives)];
          [by left|]. right. exists item. split; [set_solver | done].
      * intros Hsome. apply IHcomplete.
        destruct Hsome as [?|(item & types & Hin & Hgives)]; [by left|].
        right. exists item, types. split; [|done].
        apply elem_of_app in Hin as [?|Hin]; [done|].
        apply list_elem_of_singleton in Hin as ->.
        destruct Hgives as (_ & _ & l' & Hl' & _). simpl in Hl'. by rewrite Hl in Hl'.
Qed.

Lemma create_instance_of_map_run formatted_answers w d items :
  fs w !! realpath "output/wikidata.pickle" = Some (PickleFile d) →
  d !! "parsed_item_map" = Some (PItemMap items) →
  ∃ instance_of_map,
    ES.create_instance_of_map formatted_answers w = (w, Ok instance_of_map)
    ∧ (∀ guess types, instance_of_map !! guess = Some types →
         ∃ item, item ∈ items ∧ gives formatted_answers item guess types)
    ∧ (∀ guess item types, item ∈ items → gives formatted_answers item guess types →
         is_Some (instance_of_map !! guess)).
Proof.
  intros Hfile Hkey. eexists. split; [|split].
  - unfold ES.create_instance_of_map.
    erewrite bind_Ok; [|by apply pickle_load_file].
    unfold getitem. rewrite Hkey, bind_lift_Ok. reflexivity.
  - intros guess types Hm.
    destruct (instance_of_fold formatted_answers items ∅ guess) as [Hsound _].
    destruct (Hsound types Hm) as [Hempty|?]; [by rewrite lookup_empty in Hempty | done].
  - intros guess item types Hin Hgives.
    destruct (instance_of_fold formatted_answers items ∅ guess) as [_ Hcomplete].
    apply Hcomplete. right. by exists item, types.
Qed.

(** The instance-of map holds exactly the answers some page of the knowledge
    base gives types to: each of its entries comes from a page that formats
    to that answer and has a non-empty 'instance of' list, which is the
    entry's (non-empty) set of types; and every answer with such a page has
    an entry.  The call only reads the pickle. *)
Theorem instance_of_map_entries (formatted_answers : gset string) (w : world)
    (d : gmap string pyval) (items : list (string * gmap string (list string))) :
  fs w !! realpath "output/wikidata.pickle" = Some (PickleFile d) →
  d !! "parsed_item_map" = Some (PItemMap items) →
  ∃ instance_of_map,
    ES.create_instance_of_map formatted_answers w = (w, Ok instance_of_map)
    ∧ (∀ guess types, instance_of_map !! guess = Some types →
         guess ∈ formatted_answers ∧ types ≠ ∅
         ∧ ∃ page properties l,
             (page, properties) ∈ items ∧ format_guess page = guess
             ∧ properties !! "instance of" = Some l ∧ types = list_to_set l)
    ∧ (∀ page properties l,
         (page, properties) ∈ items → properties !! "instance of" = Some l →
         l ≠ [] → format_guess page ∈ formatted_answers →
         is_Some (instance_of_map !! format_guess page)).
Proof.
  intros Hfile Hkey.
  destruct (create_instance_of_map_run formatted_answers w d items Hfile Hkey)
    as (m & Hrun & Hsound & Hcomplete).
  exists m. split; [done|]. split.
  - intros guess types Hm.
    destruct (Hsound guess types Hm) as ([page properties] & Hin & Hg & Hans & l & Hl & Hpos & ->).
    split; [done|]. split.
    + destruct l as [|x l]; [simpl in Hpos; lia|]. set_solver.
    + by exists page, properties, l.
  - intros page properties l Hin Hl Hne Hans.
    apply (Hcomplete _ (page, properties) (list_to_set l)); [done|].
    split; [done|]. split; [done|]. exists l. split; [done|]. split; [|done].
    destruct l; [done | simpl; lia].
Qed.
End instance_of_map.

Section instance_of_map_example.
Import Demo.

Lemma instance_of_map_entries_witness :
  ∃ instance_of_map,
    ES.create_instance_of_map {[ "Plato"; "Napoleon" ]} wikidata
    = (wikidata, Ok instance_of_map)
    ∧ is_Some (instance_of_map !! "Plato").
Proof.
  destruct (instance_of_map_entries {[ "Plato"; "Napoleon" ]} wikidata
              {[ "parsed_item_map" :=
                   PItemMap [("Plato", {[ "instance of" := ["Human"; "Philosopher"] ]});
                             ("Napoleon", {[ "instance of" := ["Human"] ]})] ]}
              [("Plato", {[ "instance of" := ["Human"; "Philosopher"] ]});
               ("Napoleon", {[ "instance of" := ["Human"] ]})])
    as (m & Hrun & _ & Hcomplete).
  - vm_compute. reflexivity.
  - vm_compute. reflexivity.
  - exists m. split; [exact Hrun|].
    apply (Hcomplete "Plato" {[ "instance of" := ["Human"; "Philosopher"] ]}
             ["Human"; "Philosopher"]).
    + by left.
    + vm_compute. reflexivity.
    + discriminate.
    + vm_compute. set_solver.
Defined.
End instance_of_map_example.

(** ** The training data of the human classifier and the documents *)

Lemma string_app_assoc (a b c : string) : (a +:+ b) +:+ c = a +:+ (b +:+ c).
Proof.
  induction a as [|x a IH]; [done|].
  change (String x ((a +:+ b) +:+ c) = String x (a +:+ (b +:+ c))). by f_equal.
Qed.

Lemma concat_snoc (sep : string) (ps : list string) (p : string) :
  ps ≠ [] → String.concat sep (ps ++ [p]) = String.concat sep ps +:+ sep +:+ p.
Proof.
  induction ps as [|x [|y ps] IH]; intros Hne; [done|done|].
  change (String.concat sep ((x :: y :: ps) ++ [p]))
    with (x +:+ sep +:+ String.concat sep ((y :: ps) ++ [p])).
  rewrite IH by done.
  change (String.concat sep (x :: y :: ps))
    with (x +:+ sep +:+ String.concat sep (y :: ps)).
  by rewrite !string_app_assoc.
Qed.

Lemma zip_fst_take {A B} (l : list A) (k : list B) : (zip l k).*1 = take (length k) l.
Proof.
  revert k. induction l as [|x l IH]; intros [|y k]; simpl; try done.
  by rewrite IH.
Qed.

Lemma zip_snd_take {A B} (l : list A) (k : list B) : (zip l k).*2 = take (length l) k.
Proof.
  revert k. induction l as [|x l IH]; intros [|y k]; simpl; try done.
  by rewrite IH.
Qed.

(** The paragraphs of the questions whose answer formats to [page], in the
    order of the training data, and the document they make. *)
Definition paragraphs_of `{!Preprocess} (page : string) (examples : list (list string * string))
    : list string :=
  (λ sa, join_space sa.1) <$> filter (λ sa, format_guess sa.2 = page) examples.

Definition document_of (paragraphs : list string) : option string :=
  match paragraphs with
  | [] => None
  | _ => Some (String.concat " " paragraphs)
  end.

Section es_training_data.
Context `{!Preprocess}.

Lemma format_human_data_Ok_inv is_human_map questions pages xy :
  ES.format_human_data is_human_map questions pages = Ok xy →
  Forall2 (λ qp d, is_human_map !! format_guess qp.2 = Some (bool_of_int d.2)
                   ∧ d.1 = join_space qp.1 ∧ (d.2 = 0 ∨ d.2 = 1))
    (zip questions pages) (zip xy.1 xy.2)
  ∧ length xy.1 = length xy.2.
Proof.
  unfold ES.format_human_data.
  destruct (mapM _ (zip questions pages)) as [data|e] eqn:Hdata; [|done].
  simpl. intros [= <-]. simpl. apply mapM_result_Ok_inv in Hdata.
  split; [|by rewrite !length_fmap].
  induction Hdata as [|qp d l data Hqp _ IH]; [constructor|].
  rewrite !fmap_cons. simpl. constructor; [|done].
  unfold getitem in Hqp. destruct (is_human_map !! format_guess qp.2) as [b|]; [|done].
  simpl in Hqp. injection Hqp as <-. simpl. by destruct b; auto.
Qed.

(** When [format_human_data] returns, it returns one text and one label per
    (question, answer) pair, as many as the shorter of the two lists has: the
    text is the question's sentences joined by spaces, the label is 0 or 1,
    and it is 1 exactly when the human map flags the formatted answer. *)
Theorem format_human_data_shape (is_human_map : gmap string bool)
    (questions : list (list string)) (pages : list string)
    (x_data : list string) (y_data : list Z) :
  ES.format_human_data is_human_map questions pages = Ok (x_data, y_data) →
  length x_data = (length questions `min` length pages)%nat
  ∧ length y_data = length x_data
  ∧ x_data = join_space <$> take (length pages) questions
  ∧ Forall (λ label, label = 0 ∨ label = 1) y_data
  ∧ ∀ i p label, pages !! i = Some p → y_data !! i = Some label →
      is_human_map !! format_guess p = Some (bool_of_int label).
Proof.
  unfold ES.format_human_data.
  destruct (mapM _ (zip questions pages)) as [data|e] eqn:Hdata; [|done].
  simpl. intros [= <- <-]. apply mapM_result_Ok_inv in Hdata.
  assert (data.*1 = join_space <$> (zip questions pages).*1) as Hx.
  { induction Hdata as [|qp d l data Hqp _ IH]; [done|].
    rewrite !fmap_cons, IH. f_equal.
    destruct (getitem is_human_map (format_guess qp.2)); [|done].
    simpl in Hqp. by injection Hqp as <-. }
  split; [|split; [|split; [|split]]].
  - rewrite Hx, length_fmap, zip_fst_take, length_take. lia.
  - by rewrite !length_fmap.
  - by rewrite Hx, zip_fst_take.
  - apply Forall_fmap, Forall_forall. intros d Hd.
    apply list_elem_of_lookup in Hd as [i Hd].
    destruct (Forall2_lookup_r _ _ _ _ _ Hdata Hd) as (qp & _ & Hqp).
    destruct (getitem is_human_map (format_guess qp.2)) as [b|]; [|done].
    simpl in Hqp. injection Hqp as <-. simpl. destruct b; auto.
  - intros i p label Hp Hlabel.
    rewrite list_lookup_fmap in Hlabel.
    destruct (data !! i) as [d|] eqn:Hd; [|done]. simpl in Hlabel. injection Hlabel as <-.
    destruct (Forall2_lookup_r _ _ _ _ _ Hdata Hd) as (qp & Hzip & Hqp).
    apply lookup_zip_with_Some in Hzip as (q & p' & -> & _ & Hp').
    rewrite Hp in Hp'. injection Hp' as <-. simpl in Hqp.
    unfold getitem in Hqp. destruct (is_human_map !! format_guess p) as [b|]; [|done].
    simpl in Hqp. injection Hqp as <-. simpl. by destruct b.
Qed.

Lemma aggregate_fold (examples : list (list string * string)) (page : string) :
  foldl (λ (documents : gmap string string) sa,
           let '(sentences, ans) := sa in
           let page := format_guess ans in
           let paragraph := join_space sentences in
           match documents !! page with
           | Some text => <[page := text +:+ " " +:+ paragraph]> documents
           | None => <[page := paragraph]> documents
           end) ∅ examples !! page
  = document_of (paragraphs_of page examples).
Proof.
  induction examples as [|[sentences ans] examples IH] using rev_ind; [done|].
  rewrite foldl_snoc. unfold paragraphs_of in *. rewrite filter_app, fmap_app.
  set (documents := foldl _ ∅ examples) in *.
  destruct (decide (format_guess ans = page)) as [<-|Hne].
  - rewrite (filter_cons_True _ (sentences, ans)) by done. rewrite filter_nil. simpl.
    rewrite IH.
    destruct ((λ sa, join_space sa.1) <$> filter _ examples) as [|p ps] eqn:Hps; simpl.
    + by rewrite lookup_insert_eq.
    + rewrite lookup_insert_eq. f_equal. symmetry.
      exact (concat_snoc " " (p :: ps) (join_space sentences) ltac:(done)).
  - rewrite (filter_cons_False _ (sentences, ans)) by done. rewrite filter_nil, app_nil_r.
    rewrite <- IH.
    destruct (documents !! format_guess ans); by rewrite lookup_insert_ne.
Qed.

(** The documents [train] builds: a page has a document exactly when some
    training answer formats to it, and the document is the paragraphs of
    that page's questions, in training order, joined by single spaces (a
    paragraph being a question's sentences joined by spaces). *)
Theorem aggregate_documents (training_data : TrainingData) (page : string) :
  ES.aggregate training_data !! page
  = document_of (paragraphs_of page (zip training_data.1 training_data.2)).
Proof. apply aggregate_fold. Qed.

Lemma aggregate_pages (training_data : TrainingData) (page : string) :
  is_Some (ES.aggregate training_data !! page)
  ↔ ∃ sa, sa ∈ zip training_data.1 training_data.2 ∧ format_guess sa.2 = page.
Proof.
  rewrite aggregate_documents. unfold paragraphs_of, document_of. split.
  - destruct (filter _ _) as [|sa l] eqn:Hfilter; simpl; [by intros [? ?]|].
    intros _. exists sa.
    assert (sa ∈ filter (λ sa, format_guess sa.2 = page)
                   (zip training_data.1 training_data.2)) as Hin
      by (rewrite Hfilter; by left).
    by apply list_elem_of_filter in Hin as [? ?].
  - intros (sa & Hin & Hpage).
    assert (sa ∈ filter (λ sa, format_guess sa.2 = page)
                   (zip training_data.1 training_data.2)) as Hin'
      by (by apply list_elem_of_filter).
    destruct (filter _ _) as [|sa' l]; [by apply elem_of_nil in Hin'|]. simpl. by eexists.
Qed.
End es_training_data.

Section es_training_data_example.
Import Demo.

Lemma format_human_data_shape_witness :
  length ["greek philosopher"; "french emperor"]
  = (length training_data.1 `min` length training_data.2)%nat
  ∧ Forall (λ label, label = 0 ∨ label = 1) [1; 1].
Proof.
  destruct (format_human_data_shape
              {[ "Plato" := true; "Napoleon" := true ]}
              training_data.1 training_data.2
              ["greek philosopher"; "french emperor"] [1; 1])
    as (Hlen & _ & _ & Hlabels & _).
  - vm_compute. reflexivity.
  - split; [exact Hlen | exact Hlabels].
Defined.
End es_training_data_example.

(** ** Rebuilding the index *)

Section build_more.
Context `{!Wikipedia}.

Lemma stored_functional documents is_human_map p a b :
  stored documents is_human_map p a → stored documents is_human_map p b → a = b.
Proof.
  destruct a, b. unfold stored. simpl.
  intros (-> & Hc & Hd & Hh) (-> & Hc' & Hd' & Hh'). congruence.
Qed.

Lemma stored_unique documents is_human_map pages l1 l2 :
  Forall2 (stored documents is_human_map) pages l1 →
  Forall2 (stored documents is_human_map) pages l2 → l1 = l2.
Proof.
  intros H1. revert l2. induction H1 as [|p a pages l1 Ha _ IH]; intros l2 H2.
  - by apply Forall2_nil_inv_l in H2.
  - apply Forall2_cons_inv_l in H2 as (b & l2' & Hb & H2 & ->).
    f_equal; [by eapply stored_functional | by apply IH].
Qed.

(** [build] when every page has its reference content and its flag: the
    world afterwards. *)
Lemma build_run (documents : gmap string string) (is_human_map : gmap string bool) w :
  (∀ p, is_Some (documents !! p) →
        is_Some (is_human_map !! p) ∧ ∃ c, cw_content p = Ok c) →
  ∃ docs,
    ES.build documents is_human_map w
    = ({| fs := fs w;
          es := <["qb" := docs]> (es w);
          events := match es w !! "qb" with
                    | Some _ => events w
                    | None =>
                        LogInfo "Could not delete non-existent index, creating new index..." []
                        :: events w
                    end |}, Ok tt)
    ∧ Forall2 (stored documents is_human_map) (map_to_list documents).*1 docs.
Proof.
  intros Hlookups.
  assert (Forall (λ p, is_Some (documents !! p) ∧ is_Some (is_human_map !! p)
                       ∧ ∃ c, cw_content p = Ok c) (map_to_list documents).*1) as Hpages.
  { apply Forall_forall. intros p Hp. apply elem_of_keys in Hp.
    split; [done|]. by apply Hlookups. }
  set (msg := "Could not delete non-existent index, creating new index...").
  set (w1 := match es w !! "qb" with
             | Some _ => {| fs := fs w; es := delete "qb" (es w); events := events w |}
             | None => {| fs := fs w; es := es w; events := LogInfo msg [] :: events w |}
             end).
  set (w2 := {| fs := fs w1; es := <["qb" := []]> (es w1); events := events w1 |}).
  assert (try_except_NotFoundError (index_delete "qb") (log_info msg []) w = (w1, Ok tt))
    as Hdelete.
  { unfold try_except_NotFoundError, index_delete, w1. by destruct (es w !! "qb"). }
  assert (es w1 !! "qb" = None) as Hgone.
  { unfold w1. destruct (es w !! "qb") eqn:Hqb; simpl; [apply lookup_delete_eq | done]. }
  assert (Answer_init w1 = (w2, Ok tt)) as Hinit.
  { unfold Answer_init. by rewrite Hgone. }
  destruct (build_loop documents is_human_map _ [] w2 (lookup_insert_eq _ _ _) Hpages)
    as (w' & new & units & Hrun & Hfs & Hev & Hes & Hnew).
  exists new. split; [|done].
  unfold ES.build. fold msg.
  rewrite (bind_Ok _ _ _ _ _ Hdelete). rewrite (bind_Ok _ _ _ _ _ Hinit).
  rewrite (bind_Ok _ _ _ _ _ Hrun). unfold mret, M_ret. f_equal.
  destruct w' as [fs' es' events']. simpl in *. subst fs' es' events'. f_equal.
  - unfold w1. by destruct (es w !! "qb").
  - rewrite insert_insert_eq. unfold w1.
    destruct (es w !! "qb") eqn:Hqb; simpl; [by rewrite insert_delete_eq | done].
  - unfold w1. by destruct (es w !! "qb").
Qed.

(** Building twice from the same documents and flags gives the index the
    same documents as building once, and the second build finds an index to
    delete: it logs nothing. *)
Theorem build_idempotent (documents : gmap string string)
    (is_human_map : gmap string bool) (w : world) :
  (∀ p, is_Some (documents !! p) →
        is_Some (is_human_map !! p) ∧ ∃ c, cw_content p = Ok c) →
  ∃ w1 w2,
    ES.build documents is_human_map w = (w1, Ok tt)
    ∧ ES.build documents is_human_map w1 = (w2, Ok tt)
    ∧ es w2 = es w1
    ∧ fs w2 = fs w1
    ∧ events w2 = events w1.
Proof.
  intros Hlookups.
  destruct (build_run documents is_human_map w Hlookups) as (docs1 & Hrun1 & Hdocs1).
  eexists. destruct (build_run documents is_human_map
    {| fs := fs w; es := <["qb" := docs1]> (es w);
       events := match es w !! "qb" with
                 | Some _ => events w
                 | None =>
                     LogInfo "Could not delete non-existent index, creating new index..." []
                     :: events w
                 end |} Hlookups) as (docs2 & Hrun2 & Hdocs2).
  eexists. split; [exact Hrun1|]. split; [exact Hrun2|].
  simpl. rewrite lookup_insert_eq, insert_insert_eq.
  by rewrite (stored_unique _ _ _ _ _ Hdocs2 Hdocs1).
Qed.

Lemma bind_mret_fst {A B} (m : M A) (g : A → B) w :
  ((m ≫= λ x, mret (g x)) w).1 = (m w).1.
Proof. unfold mbind, M_bind. by destruct (m w) as [w' [a|e]]. Qed.

#[local] Abbreviation store_page documents is_human_map :=
  (λ page : string,
     content ← lift (cw_content page);
     qb ← lift (getitem documents page);
     human ← lift (getitem is_human_map page);
     Answer_save {| page := page; wiki_content := content;
                    qb_content := qb; is_human := human |}).





End build_more.

Section build_more_example.
Import Demo.

Lemma build_idempotent_witness :
  ∃ w1 w2,
    ES.build {[ "Plato" := "greek philosopher" ]} {[ "Plato" := true ]} empty_world
    = (w1, Ok tt)
    ∧ ES.build {[ "Plato" := "greek philosopher" ]} {[ "Plato" := true ]} w1 = (w2, Ok tt)
    ∧ es w2 = es w1.
Proof.
  destruct (build_idempotent
              {[ "Plato" := "greek philosopher" ]} {[ "Plato" := true ]} empty_world)
    as (w1 & w2 & Hrun1 & Hrun2 & Hes & _).
  - intros p [text Hp]. apply lookup_singleton_Some in Hp as [<- _].
    split; [by eexists | by eexists].
  - exists w1, w2. split; [exact Hrun1|]. split; [exact Hrun2 | exact Hes].
Defined.
End build_more_example.

(** ** [train] of the ElasticSearch guesser, end to end *)

Lemma elem_of_zip_snd {A B} (l : list A) (k : list B) (x : A * B) :
  x ∈ zip l k → x.2 ∈ k.
Proof.
  intros Hx. apply list_elem_of_lookup in Hx as [i Hi].
  apply lookup_zip_with_Some in Hi as (a & b & -> & _ & Hb).
  by eapply list_elem_of_lookup_2.
Qed.

Section es_train.
Context `{!Os, !Preprocess, !Sklearn, !Elastic, !Wikipedia}.

Lemma format_human_data_run (is_human_map : gmap string bool) questions pages :
  Forall (λ qp, is_Some (is_human_map !! format_guess qp.2)) (zip questions pages) →
  ES.format_human_data is_human_map questions pages
  = Ok (join_space <$> take (length pages) questions,
        (λ qp : list string * string,
           int_of_bool (default false (is_human_map !! format_guess qp.2)))
          <$> zip questions pages).
Proof.
  intros Hall. unfold ES.format_human_data.
  rewrite (mapM_result_fmap _
    (λ qp : list string * string,
       (join_space qp.1,
        int_of_bool (default false (is_human_map !! format_guess qp.2))))).
  - simpl. rewrite <- !list_fmap_compose. f_equal. f_equal.
    by rewrite <- zip_fst_take, <- list_fmap_compose.
  - intros qp Hqp. rewrite Forall_forall in Hall.
    destruct (Hall qp Hqp) as [b Hb]. unfold getitem. by rewrite Hb.
Qed.

(** [train], when the knowledge base has a non-empty 'instance of' list for
    a page of every training answer and the reference content of every
    answer can be looked up, gets to the one [fit] it calls: of the pipeline
    of a [TfidfVectorizer] and a [RidgeClassifier], on one text per question
    and one label per answer, 1 when 'Human' is among the types of a page of
    that answer.  When that [fit] raises, [train] ends with its error and
    has only logged a line.  Otherwise [train] returns, the guesser holds
    the fitted pipeline, and the index ['qb'] holds exactly one document
    per distinct formatted answer, with its aggregated text and its flag.
    No file changes. *)
Theorem es_train_outcome (self : ES.ElasticSearchWikidataGuesser)
    (training_data : TrainingData) (w : world) (d : gmap string pyval)
    (items : list (string * gmap string (list string))) :
  fs w !! realpath "output/wikidata.pickle" = Some (PickleFile d) →
  d !! "parsed_item_map" = Some (PItemMap items) →
  (∀ ans, ans ∈ training_data.2 →
     ∃ page properties l,
       (page, properties) ∈ items ∧ format_guess page = format_guess ans
       ∧ properties !! "instance of" = Some l ∧ l ≠ []) →
  (∀ ans, ans ∈ training_data.2 → ∃ c, cw_content (format_guess ans) = Ok c) →
  ∃ p,
    steps p = [("tfidf", TfidfVectorizer (1, 2) 2); ("ridge", RidgeClassifier)]
    ∧ fit_texts p = join_space <$> take (length training_data.2) training_data.1
    ∧ Forall2 (λ (sa : list string * string) (y : Z),
        ∃ pg properties l,
          (pg, properties) ∈ items ∧ format_guess pg = format_guess sa.2
          ∧ properties !! "instance of" = Some l
          ∧ y = int_of_bool (bool_decide ("Human" ∈ (list_to_set l : gset string))))
        (zip training_data.1 training_data.2) (fit_labels p)
    ∧ match fit_error p with
      | Some e =>
          ES.train self training_data w
          = ({| fs := fs w; es := es w;
                events := LogInfo "Training is_human model..." [] :: events w |},
             Raise e)
      | None =>
          ∃ w' docs,
            ES.train self training_data w
            = (w', Ok {| ES.is_human_model := PPipeline p |})
            ∧ es_ready {| ES.is_human_model := PPipeline p |} p docs w'
            ∧ fs w' = fs w
            ∧ NoDup (page <$> docs)
            ∧ (∀ pg, pg ∈ page <$> docs
                     ↔ ∃ sa, sa ∈ zip training_data.1 training_data.2
                             ∧ format_guess sa.2 = pg)
            ∧ (∀ a, a ∈ docs →
                 document_of (paragraphs_of (page a)
                                (zip training_data.1 training_data.2))
                 = Some (qb_content a)
                 ∧ ∃ pg properties l,
                     (pg, properties) ∈ items ∧ format_guess pg = page a
                     ∧ properties !! "instance of" = Some l
                     ∧ is_human a
                       = bool_decide ("Human" ∈ (list_to_set l : gset string)))
      end.
Proof.
  intros Hfile Hkey Hknown Hwiki.
  set (answers := list_to_set (format_guess <$> training_data.2) : gset string).
  set (w0 := {| fs := fs w; es := es w;
                events := LogInfo "Training is_human model..." [] :: events w |}).
  destruct (create_instance_of_map_run answers w0 d items Hfile Hkey)
    as (iom & Hiom & Hsound & Hcomplete).
  set (hm := ES.create_is_human_map iom).
  assert (∀ ans, ans ∈ training_data.2 → is_Some (iom !! format_guess ans)) as Hcover.
  { intros ans Hans. destruct (Hknown ans Hans) as (pg & properties & l & Hin & Hpg & Hl & Hne).
    apply (Hcomplete _ (pg, properties) (list_to_set l)); [done|].
    split; [done|]. split.
    - unfold answers. apply elem_of_list_to_set, list_elem_of_fmap. by exists ans.
    - exists l. split; [done|]. split; [|done]. destruct l; [done | simpl; lia]. }
  assert (∀ ans, ans ∈ training_data.2 → is_Some (hm !! format_guess ans)) as Hflags.
  { intros ans Hans. unfold hm. rewrite create_is_human_map_lookup.
    destruct (Hcover ans Hans) as [types ->]. by eexists. }
  assert (Forall (λ qp, is_Some (hm !! format_guess qp.2))
            (zip training_data.1 training_data.2)) as Hall.
  { apply Forall_forall. intros qp Hqp. apply Hflags. by eapply elem_of_zip_snd. }
  pose proof (format_human_data_run hm _ _ Hall) as Hdata.
  set (x_data := join_space <$> take (length training_data.2) training_data.1) in *.
  set (y_data := (λ qp : list string * string,
                    int_of_bool (default false (hm !! format_guess qp.2)))
                   <$> zip training_data.1 training_data.2) in *.
  set (p := {| steps := [("tfidf", TfidfVectorizer (1, 2) 2); ("ridge", RidgeClassifier)];
               fit_texts := x_data; fit_labels := y_data |}).
  assert (ES.train self training_data w
          = (lift (ES.create_human_model x_data y_data)
             ≫= λ model,
                  log_info "Building Elastic Search Index..." []
                  ≫= λ _, ES.build (ES.aggregate training_data) hm
                  ≫= λ _, mret {| ES.is_human_model := PPipeline model |}) w0)
    as Htrain.
  { unfold ES.train. fold answers.
    rewrite (bind_Ok _ _ w w0 tt) by done. cbn beta.
    rewrite (bind_Ok _ _ _ _ _ Hiom). fold hm.
    by rewrite Hdata, bind_lift_Ok. }
  exists p. split; [done|]. split; [done|]. split.
  { cbn [fit_labels p]. unfold y_data.
    apply Forall2_fmap_r, Forall_Forall2_diag, Forall_forall. intros sa Hsa.
    apply elem_of_zip_snd in Hsa. destruct (Hcover _ Hsa) as [types Htypes].
    unfold compose. cbn beta. subst hm.
    rewrite create_is_human_map_lookup, Htypes. simpl.
    destruct (Hsound _ _ Htypes) as ([pg properties] & Hin & Hpg & _ & l & Hl & _ & ->).
    by exists pg, properties, l. }
  rewrite Htrain. unfold ES.create_human_model. fold p.
  destruct (fit_error p) as [e|]; [by rewrite bind_lift_Raise|].
  rewrite bind_lift_Ok.
  set (w2 := {| fs := fs w; es := es w;
                events := LogInfo "Building Elastic Search Index..." [] :: events w0 |}).
  destruct (build_run (ES.aggregate training_data) hm w2) as (docs & Hbuild & Hdocs).
  { intros pg Hpg. apply aggregate_pages in Hpg as (sa & Hin & <-).
    apply elem_of_zip_snd in Hin. split; [by apply Hflags | by apply Hwiki]. }
  eexists _, docs. split; [|split; [|split; [|split; [|split]]]].
  - rewrite (bind_Ok _ _ w0 w2 tt) by done. cbn beta.
    rewrite (bind_Ok _ _ _ _ _ Hbuild). reflexivity.
  - split; [done|]. simpl. apply lookup_insert_eq.
  - done.
  - rewrite (stored_pages _ _ _ _ Hdocs). apply NoDup_fst_map_to_list.
  - intros pg. rewrite (stored_pages _ _ _ _ Hdocs), elem_of_keys. apply aggregate_pages.
  - intros a Ha. pose proof (stored_each _ _ _ _ _ Hdocs Ha) as (_ & _ & Hdoc & Hflag).
    split; [by rewrite <- aggregate_documents|].
    unfold hm in Hflag. rewrite create_is_human_map_lookup in Hflag.
    destruct (iom !! page a) as [types|] eqn:Htypes; [|done].
    simpl in Hflag. injection Hflag as Hflag.
    destruct (Hsound _ _ Htypes) as ([pg properties] & Hin & Hpg & _ & l & Hl & _ & ->).
    exists pg, properties, l. by repeat split.
Qed.
End es_train.

Section es_train_example.
Import Demo.

Lemma es_train_outcome_witness :
  ∃ w' p docs,
    ES.train ES.init training_data wikidata
    = (w', Ok {| ES.is_human_model := PPipeline p |})
    ∧ length (fit_labels p) = 2%nat
    ∧ es w' !! "qb" = Some docs
    ∧ NoDup (page <$> docs).
Proof.
  destruct (es_train_outcome ES.init training_data wikidata
              {[ "parsed_item_map" :=
                   PItemMap [("Plato", {[ "instance of" := ["Human"; "Philosopher"] ]});
                             ("Napoleon", {[ "instance of" := ["Human"] ]})] ]}
              [("Plato", {[ "instance of" := ["Human"; "Philosopher"] ]});
               ("Napoleon", {[ "instance of" := ["Human"] ]})])
    as (p & _ & _ & Hlabels & Hrun).
  - vm_compute. reflexivity.
  - vm_compute. reflexivity.
  - intros ans Hans. unfold training_data in Hans. simpl in Hans.
    apply elem_of_cons in Hans as [->|Hans];
      [|apply elem_of_cons in Hans as [->|Hans]; [|by apply elem_of_nil in Hans]].
    + exists "Plato", {[ "instance of" := ["Human"; "Philosopher"] ]},
        ["Human"; "Philosopher"]. split; [by left|]. by repeat split.
    + exists "Napoleon", {[ "instance of" := ["Human"] ]}, ["Human"].
      split; [right; by left|]. by repeat split.
  - intros ans _. by eexists.
  - change (fit_error p) with (@None exn) in Hrun.
    destruct Hrun as (w' & docs & Hrun & [_ Hdocs] & _ & Hnodup & _).
    exists w', p, docs. split; [exact Hrun|]. split; [|split; [exact Hdocs | exact Hnodup]].
    apply Forall2_length in Hlabels. symmetry. exact Hlabels.
Defined.
End es_train_example.
(** ** [guess] of the ElasticSearch guesser and the world *)

Lemma mapM_keeps_world {A B} (f : A → M B) (l : list A) (w : world) :
  (∀ x w, (f x w).1 = w) → (mapM f l w).1 = w.
Proof.
  intros Hf. induction l as [|x l IH]; [done|]. cbn [mapM].
  unfold mbind at 1, M_bind. pose proof (Hf x w) as Hx.
  destruct (f x w) as [w1 [y|e]]; simpl in Hx; subst w1; [|done].
  by rewrite bind_mret_fst.
Qed.

Section es_guess_more.
Context `{!Sklearn, !Elastic}.

Lemma ir_search_keeps_world self k query w : (ES.ir_search self k query w).1 = w.
Proof.
  unfold ES.ir_search.
  destruct (ES.model_transform (ES.is_human_model self) [query]) as [labels|e]; [|done].
  rewrite bind_lift_Ok. destruct (getindex labels 0) as [label|e]; [|done].
  rewrite bind_lift_Ok. unfold mbind, M_bind, ES.search.
  by destruct (es w !! "qb").
Qed.

(** [guess] of the ElasticSearch guesser changes nothing: whatever the
    guesser holds and whatever it returns or raises, the files, the index
    and the log are as before. *)
Theorem es_guess_reads_only (self : ES.ElasticSearchWikidataGuesser)
    (questions : list string) (k : option Z) (w : world) :
  (ES.guess self questions k w).1 = w.
Proof. apply mapM_keeps_world. intros query w'. apply ir_search_keeps_world. Qed.
End es_guess_more.

(** * Further properties of rnn.py *)

(** ** The parameter blob *)

Lemma load_parameters_cases (guesser : RNN.RNNGuesser) (params : gmap string pyval) :
  match RNN.load_parameters guesser params with
  | Ok loaded =>
      (∀ name, name ∈ parameter_names → is_Some (params !! name))
      ∧ parameters_of params loaded
      ∧ RNN.expand_we loaded = RNN.expand_we guesser
      ∧ RNN.model loaded = RNN.model guesser
  | Raise e =>
      ∃ name, name ∈ parameter_names ∧ params !! name = None
              ∧ e = KeyError (PStr name)
  end.
Proof.
  unfold RNN.load_parameters, getitem.
  repeat match goal with
  | |- context [params !! ?k] =>
      is_ground k;
      destruct (params !! k) eqn:?; simpl;
      [|eexists; split; [|split; [eassumption | reflexivity]];
        unfold parameter_names; set_solver]
  end.
  split.
  - intros name Hname. unfold parameter_names in Hname.
    repeat (apply elem_of_cons in Hname as [->|Hname]; [by eexists|]).
    by apply elem_of_nil in Hname.
  - by repeat split.
Qed.

(** [load_parameters] returns exactly when the blob has the twelve keys, and
    then the parameter fields are the blob's values while [expand_we] and the
    model stay as they were; otherwise it raises [KeyError] on a key the
    blob lacks. *)
Theorem load_parameters_needs_every_key (guesser : RNN.RNNGuesser)
    (params : gmap string pyval) :
  match RNN.load_parameters guesser params with
  | Ok loaded =>
      (∀ name, name ∈ parameter_names → is_Some (params !! name))
      ∧ parameters_of params loaded
      ∧ RNN.expand_we loaded = RNN.expand_we guesser
      ∧ RNN.model loaded = RNN.model guesser
  | Raise e =>
      ∃ name, name ∈ parameter_names ∧ params !! name = None
              ∧ e = KeyError (PStr name)
  end.
Proof. apply load_parameters_cases. Qed.

(** The blob [dump_parameters] makes has the twelve parameter keys and no
    other: neither [expand_we] nor the model is in it. *)
Theorem dump_parameters_keys (self : RNN.RNNGuesser) (name : string) :
  is_Some (RNN.dump_parameters self !! name) ↔ name ∈ parameter_names.
Proof.
  split; [|apply dump_parameters_names].
  intros [v Hv]. unfold RNN.dump_parameters in Hv.
  apply elem_of_list_to_map_2 in Hv. unfold parameter_names.
  repeat (apply elem_of_cons in Hv as [[= -> _]|Hv]; [set_solver|]).
  by apply elem_of_nil in Hv.
Qed.
(** ** [train] of the RNN guesser, end to end *)

Lemma filter_is_fit_log_before_build we_log :
  filter (λ e, is_fit e) (log_before_build we_log) = [].
Proof.
  unfold log_before_build. rewrite !filter_app.
  replace (filter (λ e, is_fit e) ((λ msg, LogInfo msg []) <$> we_log)) with (@nil event);
    [done|].
  induction we_log as [|msg we_log IH]; [done|].
  rewrite fmap_cons, filter_cons_False; [done|]. simpl. by intros [].
Qed.

Section rnn_train_more.
Context `{!Os, !Preprocess, !NN, !Numpy, !Keras}.

(** [train] with a supported cell family loads the embeddings, builds the
    model of the new parameters and calls [fit] once, on that model, with
    the encoded training and validation data, the guesser's batch size and
    epochs and the two callbacks; the index is left alone.  Then it saves
    the fitted model at the temporary path.  When that is done [train]
    returns: the file at the temporary path holds the fitted model, and the
    guesser holds that model, the class maps and vocabulary of
    [preprocess_dataset], the embeddings of [load_embeddings], [n_classes]
    and [max_len] of the training data, and the configured fields it had.
    Otherwise [train] ends with the error of saving the model. *)
Theorem rnn_train_postcondition (self : RNN.RNNGuesser) (training_data : TrainingData)
    (w : world) :
  supported_cell (RNN.rnn_cell self) = true →
  let el := train_embeddings self training_data (fs w) in
  let pre := preprocess_dataset training_data in
  ∃ m args,
    fitted m = Some args
    ∧ (∀ self', RNN.rnn_cell self' = RNN.rnn_cell self →
                RNN.embeddings self' = PArray (we_table el) →
                RNN.max_len self' = PInt (compute_max_len training_data) →
                RNN.n_classes self' = PInt (compute_n_classes training_data.2) →
                RNN.build_model self'
                = Ok {| layers := layers m; loss := loss m; optimizer := optimizer m;
                        metrics := metrics m; fitted := None |})
    ∧ fit_x args = RNN.encode (we_lookup el) (compute_max_len training_data) (x_train pre)
    ∧ fit_y args = y_train pre
    ∧ fit_validation_x args
      = RNN.encode (we_lookup el) (compute_max_len training_data) (x_test pre)
    ∧ fit_validation_y args = y_test pre
    ∧ fit_batch_size args = RNN.batch_size self
    ∧ fit_epochs args = RNN.max_n_epochs self
    ∧ fit_callbacks args
      = [TensorBoard;
         EarlyStopping (RNN.max_patience self) "val_sparse_categorical_accuracy"]
    ∧ es (RNN.train self training_data w).1 = es w
    ∧ filter (λ e, is_fit e) (events (RNN.train self training_data w).1)
      = Fit (layers m) args :: filter (λ e, is_fit e) (events w)
    ∧ match (RNN.train self training_data w).2 with
      | Raise e => saving_error e
      | Ok self' =>
          fs (RNN.train self training_data w).1 !! realpath RNN.RNN_MODEL_TMP_TARGET
          = Some (KerasFile m)
          ∧ RNN.model self' = Some m
          ∧ RNN.rnn_cell self' = RNN.rnn_cell self
          ∧ RNN.min_answers self' = RNN.min_answers self
          ∧ RNN.expand_we self' = RNN.expand_we self
          ∧ RNN.max_n_epochs self' = RNN.max_n_epochs self
          ∧ RNN.batch_size self' = RNN.batch_size self
          ∧ RNN.max_patience self' = RNN.max_patience self
          ∧ RNN.i_to_class self' = PIntStrDict (pre_i_to_class pre)
          ∧ RNN.class_to_i self' = PStrIntDict (pre_class_to_i pre)
          ∧ RNN.vocab self' = PStrList (pre_vocab pre)
          ∧ RNN.n_classes self' = PInt (compute_n_classes training_data.2)
          ∧ RNN.max_len self' = PInt (compute_max_len training_data)
          ∧ RNN.embeddings self' = PArray (we_table el)
          ∧ RNN.embedding_lookup self' = PStrIntDict (we_lookup el)
      end.
Proof.
  intros Hcell el pre. destruct (cell_of_supported _ Hcell) as [c Hc].
  exists (trained_model self training_data c el), (train_args self training_data el).
  split; [reflexivity|]. split.
  { intros self' Hcell' Hrows Hlen Hn.
    rewrite (build_model_layers self' c (we_table el)); [|by rewrite Hcell'|done].
    by rewrite Hlen, Hn. }
  do 7 (split; [reflexivity|]).
  assert (filter (λ e, is_fit e) (events (world_before_save self training_data c w))
          = Fit (layers (trained_model self training_data c el))
              (train_args self training_data el)
            :: filter (λ e, is_fit e) (events w)) as Hfits.
  { cbn [events world_before_save]. fold el.
    rewrite (filter_app _ [_; _; _; _]), filter_app, filter_is_fit_log_before_build.
    reflexivity. }
  destruct (train_outcome self training_data w c Hc)
    as [(files & _ & Hrun)|(w' & e & Hrun & Hes & Hev & He)];
    rewrite Hrun; cbn [fst snd].
  - split; [done|]. split.
    { cbn [events]. rewrite (filter_app _ [_; _]). exact Hfits. }
    split; [cbn [fs]; apply lookup_insert_eq|]. by repeat split.
  - split; [done|]. split; [by rewrite Hev|]. done.
Qed.

(** A guesser as [train] leaves it answers every question list, with one
    list per question, provided the class map of [preprocess_dataset] names
    every class the fitted network scores. *)
Theorem train_then_guess `{!NNLaws, !NumpyLaws} (self self' : RNN.RNNGuesser)
    (training_data : TrainingData) (w w' w'' : world)
    (questions : list string) (k : option Z) :
  RNN.train self training_data w = (w', Ok self') →
  (∀ m x i, RNN.model self' = Some m → (i < length (predict_row m x))%nat →
            is_Some (pre_i_to_class (preprocess_dataset training_data) !! Z.of_nat i)) →
  ∃ lookup max_len m d results,
    rnn_ready self' lookup max_len m d
    ∧ (RNN.guess self' questions k w'').2 = Ok results
    ∧ length results = length questions.
Proof.
  intros Hrun Hclasses.
  destruct (train_Ok_inv _ _ _ _ _ Hrun) as (c & Hc & -> & _).
  set (el := train_embeddings self training_data (fs w)) in *.
  eexists _, _, (trained_model self training_data c el), _, _.
  assert (rnn_ready (trained_guesser self training_data c el)
            (we_lookup el) (compute_max_len training_data)
            (trained_model self training_data c el)
            (pre_i_to_class (preprocess_dataset training_data))) as Hready.
  { split; [reflexivity|]. split; [reflexivity|]. split; [reflexivity|].
    split; [reflexivity|]. intros x i. by apply Hclasses. }
  split; [exact Hready|].
  destruct Hready as (Hl & Hn & Hm & Hd & Hp).
  rewrite (rnn_guess_run _ _ _ _ _ questions k w'' Hl Hn Hm Hd Hp). cbn [snd].
  split; [reflexivity|]. by rewrite length_fmap.
Qed.
End rnn_train_more.

Section rnn_train_more_example.
Import Demo.
#[local] Existing Instance demo_numpy_laws.
#[local] Existing Instance demo_nn_laws.

Lemma rnn_train_postcondition_witness :
  ∃ m,
    fs rnn_trained_world !! realpath RNN.RNN_MODEL_TMP_TARGET = Some (KerasFile m)
    ∧ RNN.model rnn_trained = Some m
    ∧ fit_y <$> fitted m = Some [0; 1; 1].
Proof.
  destruct (rnn_train_postcondition (RNN.init conf) rnn_training_data models_world)
    as (m & args & Hfitted & _ & _ & Hy & _ & _ & _ & _ & _ & _ & _ & Hend).
  - reflexivity.
  - rewrite demo_rnn_train in Hend. cbn [fst snd] in Hend.
    destruct Hend as (Hfile & Hmodel & _).
    exists m. split; [exact Hfile|]. split; [exact Hmodel|].
    rewrite Hfitted. simpl. f_equal. exact Hy.
Defined.

Lemma train_then_guess_witness :
  ∃ results,
    (RNN.guess rnn_trained ["emperor"; "who"] (Some 1) rnn_trained_world).2 = Ok results
    ∧ length results = 2%nat.
Proof.
  destruct (train_then_guess (RNN.init conf) rnn_trained rnn_training_data
              models_world rnn_trained_world rnn_trained_world
              ["emperor"; "who"] (Some 1) demo_rnn_train)
    as (lookup & max_len & m & d & results & _ & Hrun & Hlen).
  - intros m x i Hm Hi.
    assert (m = rnn_model) as -> by (vm_compute in Hm; by injection Hm as <-).
    rewrite demo_rnn_width in Hi.
    destruct i as [|[|i]]; [by eexists | by eexists | lia].
  - exists results. split; [exact Hrun | exact Hlen].
Defined.
End rnn_train_more_example.
(** ** [save] and [load] of the RNN guesser *)

Section rnn_persist_more.
Context `{!Os, !Preprocess, !NN, !Numpy, !Keras}.



(** What [save] persists as the model is the file at the temporary path, not
    the model the guesser holds: after a [save] that returned, [load] gives
    a guesser with the parameters of the saved one and the model of that
    file, whichever model (or none) the saved guesser had, and with
    [expand_we] of the configuration read at load time. *)
Theorem rnn_save_persists_temporary_model (self : RNN.RNNGuesser) (conf : Conf)
    (directory : string) (w w' : world) (m : Sequential) :
  fs w !! realpath RNN.RNN_MODEL_TMP_TARGET = Some (KerasFile m) →
  RNN.save self directory w = (w', Ok tt) →
  realpath (os_path_join directory RNN.RNN_MODEL_TARGET)
  ≠ realpath (os_path_join directory RNN.RNN_PARAMS_TARGET) →
  ∃ loaded,
    RNN.load conf directory w' = (w', Ok loaded)
    ∧ RNN.model loaded = Some m
    ∧ same_parameters loaded self
    ∧ RNN.expand_we loaded = conf_expand_we conf.
Proof.
  intros Htmp Hsave Hne.
  destruct (save_load_run self conf directory w w' m Htmp Hsave Hne)
    as (loaded & Hload & Hsame & Hmodel & Hwe).
  by exists loaded.
Qed.

End rnn_persist_more.

Section rnn_persist_more_example.
Import Demo.


Lemma rnn_save_persists_temporary_model_witness :
  ∃ loaded,
    RNN.load conf "models" (RNN.save (RNN.init conf) "models" rnn_trained_world).1
    = ((RNN.save (RNN.init conf) "models" rnn_trained_world).1, Ok loaded)
    ∧ RNN.model (RNN.init conf) = None
    ∧ RNN.model loaded = Some rnn_model.
Proof.
  destruct (rnn_save_persists_temporary_model (RNN.init conf) conf "models"
              rnn_trained_world (RNN.save (RNN.init conf) "models" rnn_trained_world).1
              rnn_model)
    as (loaded & Hload & Hmodel & _).
  - vm_compute. reflexivity.
  - vm_compute. reflexivity.
  - vm_compute. discriminate.
  - exists loaded. split; [exact Hload|]. split; [reflexivity | exact Hmodel].
Defined.
End rnn_persist_more_example.

(** ** [guess] at its edges *)

Lemma slice_to_length_any {A} (k : Z) (l : list A) :
  Z.of_nat (length (slice_to (Some k) l))
  = if decide (0 ≤ k) then Z.min k (Z.of_nat (length l))
    else Z.max 0 (Z.of_nat (length l) + k).
Proof. simpl. case_decide; rewrite length_take; lia. Qed.

Lemma mapM_result_first_Raise {A B} (f : A → result B) (l : list A) :
  (∃ x e, x ∈ l ∧ f x = Raise e) →
  ∃ x e, x ∈ l ∧ f x = Raise e ∧ mapM f l = Raise e.
Proof.
  induction l as [|y l IH]; intros (x & e & Hx & Hfx); [by apply elem_of_nil in Hx|].
  cbn [mapM]. destruct (f y) as [b|e'] eqn:Hy.
  - apply elem_of_cons in Hx as [->|Hx]; [congruence|].
    destruct IH as (x' & e'' & Hx' & Hfx' & Hm); [by exists x, e|].
    exists x', e''. split; [by right|]. split; [done|]. simpl. by rewrite Hm.
  - exists y, e'. split; [by left|]. by split.
Qed.

Section guess_edges.
Context `{!Preprocess, !NN, !Numpy, !Keras}.
Context `{!NNLaws, !NumpyLaws}.

(** For every integer bound [k], negative ones too, the RNN guesser returns
    one list per question cut as the slice [[:k]] cuts: for [k >= 0] the
    list has [min(k, n)] entries, for [k < 0] it loses its last [|k|]
    entries and has [max(0, n + k)], where [n] is the number of classes the
    network scores.  With [k = 0] every list is empty. *)
Theorem guess_cut_for_any_bound
    (rnn_self : RNN.RNNGuesser) (lookup : gmap string Z) (max_len : Z)
    (m : Sequential) (d : gmap Z string)
    (questions : list string) (k : Z) (w : world) :
  rnn_ready rnn_self lookup max_len m d →
  ∃ results,
    (RNN.guess rnn_self questions (Some k) w).2 = Ok results
    ∧ Forall2 (λ q (r : list (string * Q)),
        let n := length (predict_row m (encode_question lookup max_len q)) in
        Z.of_nat (length r)
        = if decide (0 ≤ k) then Z.min k (Z.of_nat n) else Z.max 0 (Z.of_nat n + k))
        questions results
    ∧ (k = 0 → results = replicate (length questions) []).
Proof.
  intros (Hlookup & Hlen & Hm & Hd & Hpages).
  eexists.
  rewrite (rnn_guess_run _ lookup max_len m d) by done. cbn [snd].
  split; [reflexivity|]. split.
  - apply Forall2_fmap_r, Forall_Forall2_diag, Forall_forall. intros q _. unfold compose. cbn beta zeta.
    rewrite length_fmap, slice_to_length_any.
    by rewrite argsort_length, length_fmap.
  - intros ->.
    induction questions as [|q questions IH]; [done|].
    rewrite fmap_cons. simpl. by f_equal.
Qed.
End guess_edges.

Section guess_row_errors.
Context `{!Numpy}.

(** When the class map lacks one of the classes [guess] selects, decoding
    the row raises [KeyError] on such a class: no partial list of guesses is
    returned. *)
Theorem guess_row_missing_class (self : RNN.RNNGuesser) (d : gmap Z string)
    (k : option Z) (row : list Q) :
  RNN.i_to_class self = PIntStrDict d →
  (∃ i, i ∈ slice_to k (argsort (Qopp <$> row)) ∧ d !! Z.of_nat i = None) →
  ∃ i, i ∈ slice_to k (argsort (Qopp <$> row)) ∧ d !! Z.of_nat i = None
       ∧ RNN.guess_row self k row = Raise (KeyError (PInt (Z.of_nat i))).
Proof.
  intros Hd (i & Hi & Hnone). unfold RNN.guess_row. rewrite Hd.
  destruct (mapM_result_first_Raise
              (λ i : nat, getitem_int d (Z.of_nat i))
              (slice_to k (argsort (Qopp <$> row))))
    as (j & e & Hj & Hfj & Hm).
  { exists i, (KeyError (PInt (Z.of_nat i))). split; [done|].
    unfold getitem_int. by rewrite Hnone. }
  exists j. unfold getitem_int in Hfj.
  destruct (d !! Z.of_nat j) eqn:Hdj; [done|]. injection Hfj as <-.
  split; [done|]. split; [done|]. by rewrite Hm.
Qed.
End guess_row_errors.

Section rnn_guess_frame.
Context `{!Preprocess, !NN, !Numpy, !Keras}.

(** [guess] of the RNN guesser writes no file and does not touch the index,
    whatever the guesser holds and whether it returns or raises; all it
    leaves behind are lines of the log. *)
Theorem rnn_guess_keeps_store (self : RNN.RNNGuesser) (questions : list string)
    (k : option Z) (w : world) :
  fs (RNN.guess self questions k w).1 = fs w
  ∧ es (RNN.guess self questions k w).1 = es w
  ∧ ∃ new, events (RNN.guess self questions k w).1 = new ++ events w.
Proof.
  unfold RNN.guess, mbind, M_bind, log_info, emit, lift.
  destruct (mapM _ questions) as [x_test|e]; simpl;
    [|repeat split; by eexists [_]].
  destruct (RNN.max_len self); simpl; try (repeat split; by eexists [_]).
  destruct (RNN.model self) as [m|]; simpl; [|repeat split; by eexists [_]].
  repeat split. by eexists [_; _].
Qed.
End rnn_guess_frame.

Section guess_edges_example.
Import Demo.
#[local] Existing Instance demo_numpy_laws.
#[local] Existing Instance demo_nn_laws.

Lemma guess_cut_for_any_bound_witness :
  ∃ results,
    (RNN.guess rnn_trained ["emperor"] (Some (-1)) rnn_trained_world).2 = Ok results
    ∧ Forall2 (λ q (r : list (string * Q)), Z.of_nat (length r) = 1) ["emperor"] results.
Proof.
  destruct (guess_cut_for_any_bound
              rnn_trained rnn_lookup rnn_max_len rnn_model rnn_classes
              ["emperor"] (-1) rnn_trained_world demo_rnn_ready)
    as (results & Hrun & Hcut & _).
  exists results. split; [exact Hrun|].
  eapply Forall2_impl; [exact Hcut|]. intros q r Hr. exact Hr.
Defined.

Lemma guess_row_missing_class_witness :
  ∃ i, rnn_classes !! Z.of_nat i = None
       ∧ RNN.guess_row rnn_trained None [(1 # 10)%Q; (2 # 10)%Q; (7 # 10)%Q]
         = Raise (KeyError (PInt (Z.of_nat i))).
Proof.
  destruct (guess_row_missing_class rnn_trained rnn_classes None
              [(1 # 10)%Q; (2 # 10)%Q; (7 # 10)%Q])
    as (i & _ & Hnone & Hrun).
  - vm_compute. reflexivity.
  - exists 2%nat. split; [vm_compute; set_solver | reflexivity].
  - exists i. split; [exact Hnone | exact Hrun].
Defined.
End guess_edges_example.
